(** * SMAD mission data model: the evaluation engine of [smad_data_model.py]

    A shallow embedding of the classes the design-evaluation engine is made
    of, followed by the properties checked of them.

    Conventions.
    - A Python [float] is a binary64 primitive float; [<], [<=], [==] are the
      IEEE comparisons Python performs (false on NaN), [>=] and [>] their
      mirrored forms, [!=] the negation of [==].
    - An [Optional[float]] is an [option float]; ordering a float against
      [None] raises [TypeError], comparing it with [==] does not.
    - A [raise] is the [Raise] branch of [Exc]; a method that assigns to
      [self] returns the updated object next to its result.
    - A [Dict[str, V]] is a [gmap string V].
    - A record keeps the fields some modelled method reads or assigns, and
      the identifying ones; free-text notes, property maps and the like are
      left out.
    - The three success rates are quotients of two dictionary counts; they
      are kept as exact rationals, of which the Python double is the
      rounding (the rounding keeps a rate below 100 below 100 for any
      dictionary of fewer than 2^53 entries). *)

From Stdlib Require Import Floats QArith ZArith String Ascii List Lia.
From stdpp Require Import base option list strings gmap.

Set Warnings "-inexact-float".

Local Open Scope string_scope.

(** ** Exceptions *)

Inductive exn : Type :=
| ValueError (msg : string)
| TypeError
| ZeroDivisionError
| OverflowError.

Inductive Exc (A : Type) : Type :=
| Ok (a : A)
| Raise (e : exn).

Arguments Ok {A} a.
Arguments Raise {A} e.

Definition bind {A B : Type} (m : Exc A) (k : A -> Exc B) : Exc B :=
  match m with
  | Ok a => k a
  | Raise e => Raise e
  end.

Notation "'do' x <- m ; k" := (bind m (fun x => k))
  (at level 10, x name, m at level 100, k at level 200).

Definition raises {A : Type} (m : Exc A) : Prop :=
  match m with
  | Ok _ => False
  | Raise _ => True
  end.

(** ** Float comparisons as Python writes them *)

Definition float_lt (a b : float) : bool := PrimFloat.ltb a b.
Definition float_le (a b : float) : bool := PrimFloat.leb a b.
Definition float_eq (a b : float) : bool := PrimFloat.eqb a b.
Definition float_ge (a b : float) : bool := PrimFloat.leb b a.
Definition float_gt (a b : float) : bool := PrimFloat.ltb b a.
Definition float_ne (a b : float) : bool := negb (PrimFloat.eqb a b).

(** [a < b] and friends with a right operand that may be [None]. *)
Definition ord_opt (cmp : float -> float -> bool) (a : float) (b : option float) : Exc bool :=
  match b with
  | Some b' => Ok (cmp a b')
  | None => Raise TypeError
  end.

Definition eq_opt (a : float) (b : option float) : Exc bool :=
  match b with
  | Some b' => Ok (float_eq a b')
  | None => Ok false
  end.

Definition ne_opt (a : float) (b : option float) : Exc bool :=
  match b with
  | Some b' => Ok (float_ne a b')
  | None => Ok true
  end.

(** ** Enumerations *)

Inductive ComparisonOperator : Type :=
| LESS_THAN
| LESS_THAN_OR_EQUAL
| EQUAL
| GREATER_THAN_OR_EQUAL
| GREATER_THAN
| BETWEEN
| NOT_EQUAL.

Definition ComparisonOperator_value (op : ComparisonOperator) : string :=
  match op with
  | LESS_THAN => "<"
  | LESS_THAN_OR_EQUAL => "<="
  | EQUAL => "=="
  | GREATER_THAN_OR_EQUAL => ">="
  | GREATER_THAN => ">"
  | BETWEEN => "between"
  | NOT_EQUAL => "!="
  end.

Inductive Unit : Type :=
| METERS | KILOMETERS | CENTIMETERS | MILLIMETERS | MICROMETERS
| SECONDS | MINUTES | HOURS | DAYS | YEARS
| BITS | BYTES | MEGABYTES | GIGABYTES | TERABYTES
| MEGABITS_PER_SECOND | GIGABITS_PER_SECOND
| KILOGRAMS | GRAMS | TONNES | WATTS | KILOWATTS | USD | EUR
| DEGREES | RADIANS | NANOMETERS | DECIBELS | PERCENT | COUNT | UNITLESS.

Inductive ObjectiveStatus : Type :=
| NOT_EVALUATED
| BELOW_THRESHOLD
| THRESHOLD_MET
| BASELINE_MET
| TARGET_MET
| EXCEEDED.

Inductive SolutionStatus : Type :=
| PROPOSED
| UNDER_EVALUATION
| REQUIREMENTS_MET
| REQUIREMENTS_NOT_MET
| SELECTED
| REJECTED.

(** ** NumericConstraintValue *)

Module NumericConstraintValue.

Record t : Type := mk {
  operator : ComparisonOperator;
  value : option float;
  min_value : option float;
  max_value : option float;
  unit : Unit
}.

Definition post_init (self : t) : Exc t :=
  match operator self with
  | BETWEEN =>
      match min_value self, max_value self with
      | Some lo, Some hi =>
          if float_ge lo hi
          then Raise (ValueError "min_value must be < max_value")
          else Ok self
      | _, _ => Raise (ValueError "BETWEEN requires min_value and max_value")
      end
  | op =>
      match value self with
      | None => Raise (ValueError (ComparisonOperator_value op ++ " requires a value"))
      | Some _ => Ok self
      end
  end.

(** The dataclass constructor: the generated [__init__] stores the fields,
    then runs [__post_init__]; when that raises no object is returned. *)
Definition new (op : ComparisonOperator) (v mn mx : option float) (u : Unit) : Exc t :=
  post_init (mk op v mn mx u).

Definition evaluate (self : t) (test_value : float) : Exc bool :=
  match operator self with
  | LESS_THAN => ord_opt float_lt test_value (value self)
  | LESS_THAN_OR_EQUAL => ord_opt float_le test_value (value self)
  | EQUAL => eq_opt test_value (value self)
  | GREATER_THAN_OR_EQUAL => ord_opt float_ge test_value (value self)
  | GREATER_THAN => ord_opt float_gt test_value (value self)
  | BETWEEN =>
      (* min_value <= test_value <= max_value: the chain stops at the first
         false link *)
      match min_value self with
      | None => Raise TypeError
      | Some lo =>
          if float_le lo test_value
          then ord_opt float_le test_value (max_value self)
          else Ok false
      end
  | NOT_EQUAL => ne_opt test_value (value self)
  end.

End NumericConstraintValue.

(** ** Objectives and key performance indicators *)

(** [str.lower] on strings of ASCII characters: the letters A to Z are
    folded, every other character is kept. Python folds the letters outside
    ASCII as well, so the two agree on ASCII strings only. [evaluate_performance]
    compares levels with "target", "baseline" and "threshold", and a level
    holding a character outside ASCII lowers to none of them under either
    function; a statement about other level names says which strings it
    covers. *)
Definition lower_ascii (c : ascii) : ascii :=
  let n := nat_of_ascii c in
  if (Nat.leb 65 n && Nat.leb n 90)%bool then ascii_of_nat (n + 32) else c.

Fixpoint lower (s : string) : string :=
  match s with
  | EmptyString => EmptyString
  | String c s' => String (lower_ascii c) (lower s')
  end.

Module PerformanceThreshold.

Record t : Type := mk {
  level : string;
  value : float;
  unit : Unit;
  operator : ComparisonOperator;
  description : string
}.

Definition evaluate (self : t) (actual_value : float) : bool :=
  match operator self with
  | LESS_THAN => float_lt actual_value (value self)
  | LESS_THAN_OR_EQUAL => float_le actual_value (value self)
  | EQUAL => float_eq actual_value (value self)
  | GREATER_THAN_OR_EQUAL => float_ge actual_value (value self)
  | GREATER_THAN => float_gt actual_value (value self)
  | NOT_EQUAL => float_ne actual_value (value self)
  | BETWEEN => false
  end.

End PerformanceThreshold.

Module KeyPerformanceIndicator.

Record t : Type := mk {
  id : string;
  name : string;
  description : string;
  unit : Unit;
  thresholds : list PerformanceThreshold.t;
  weight : float;
  current_value : option float;
  status : ObjectiveStatus
}.

(** The first threshold of the list whose level matches, case-blind. *)
Fixpoint find_level (ts : list PerformanceThreshold.t) (level : string)
  : option PerformanceThreshold.t :=
  match ts with
  | [] => None
  | th :: rest =>
      if String.eqb (lower (PerformanceThreshold.level th)) (lower level)
      then Some th
      else find_level rest level
  end.

Definition get_threshold (self : t) (level : string) : option PerformanceThreshold.t :=
  find_level (thresholds self) level.

(** [tier and tier.evaluate(actual_value)]: a threshold object is always
    truthy, so the conjunction fails only on [None] or a false evaluation. *)
Definition tier_holds (tier : option PerformanceThreshold.t) (actual_value : float) : bool :=
  match tier with
  | Some th => PerformanceThreshold.evaluate th actual_value
  | None => false
  end.

Definition set_result (self : t) (actual_value : float) (st : ObjectiveStatus) : t :=
  mk (id self) (name self) (description self) (unit self) (thresholds self)
     (weight self) (Some actual_value) st.

Definition evaluate_performance (self : t) (actual_value : float) : ObjectiveStatus * t :=
  let target := get_threshold self "target" in
  let baseline := get_threshold self "baseline" in
  let threshold := get_threshold self "threshold" in
  let st :=
    if tier_holds target actual_value then TARGET_MET
    else if tier_holds baseline actual_value then BASELINE_MET
    else if tier_holds threshold actual_value then THRESHOLD_MET
    else BELOW_THRESHOLD in
  (st, set_result self actual_value st).

Definition add_threshold (self : t) (threshold : PerformanceThreshold.t) : t :=
  mk (id self) (name self) (description self) (unit self)
     (thresholds self ++ [threshold])%list
     (weight self) (current_value self) (status self).

End KeyPerformanceIndicator.

(** The rank table both [evaluate_objective] methods build. *)
Definition status_values (s : ObjectiveStatus) : Z :=
  match s with
  | EXCEEDED => 5
  | TARGET_MET => 4
  | BASELINE_MET => 3
  | THRESHOLD_MET => 2
  | BELOW_THRESHOLD => 1
  | NOT_EVALUATED => 0
  end.

(** One turn of the minimum loop: the pair is [(min_status, min_value)]. *)
Definition min_step (acc : ObjectiveStatus * Z) (s : ObjectiveStatus) : ObjectiveStatus * Z :=
  let v := status_values s in
  if (v <? snd acc)%Z then (s, v) else acc.

Definition min_loop (statuses : list ObjectiveStatus) : ObjectiveStatus :=
  fst (fold_left min_step statuses (EXCEEDED, 6%Z)).

Module QuantitativeObjective.

Record t : Type := mk {
  id : string;
  qualitative_objective_id : string;
  title : string;
  description : string;
  kpis : list KeyPerformanceIndicator.t
}.

Definition evaluate_objective (self : t) : ObjectiveStatus :=
  match kpis self with
  | [] => NOT_EVALUATED
  | _ => min_loop (map KeyPerformanceIndicator.status (kpis self))
  end.

Definition add_kpi (self : t) (kpi : KeyPerformanceIndicator.t) : t :=
  mk (id self) (qualitative_objective_id self) (title self) (description self)
     (kpis self ++ [kpi])%list.

End QuantitativeObjective.

Module MissionObjective.

Record t : Type := mk {
  id : string;
  title : string;
  description : string;
  quantitative_objectives : list QuantitativeObjective.t
}.

Definition evaluate_objective (self : t) : ObjectiveStatus :=
  match quantitative_objectives self with
  | [] => NOT_EVALUATED
  | _ => min_loop (map QuantitativeObjective.evaluate_objective (quantitative_objectives self))
  end.

Definition add_quantitative_objective (self : t) (quant_obj : QuantitativeObjective.t) : t :=
  mk (id self) (title self) (description self)
     (quantitative_objectives self ++ [quant_obj])%list.

(** [all_kpis.extend(qo.kpis)] for each quantitative objective in turn. *)
Definition get_all_kpis (self : t) : list KeyPerformanceIndicator.t :=
  fold_left (fun all_kpis qo => (all_kpis ++ QuantitativeObjective.kpis qo)%list)
    (quantitative_objectives self) [].

End MissionObjective.

(** ** Orbit *)

(** [math.pi], the double nearest to pi. *)
Definition math_pi : float := 0x1.921fb54442d18p+1%float.

(** [math.sqrt]: a NaN result from an argument that is not NaN is a domain
    error. *)
Definition math_sqrt (x : float) : Exc float :=
  let r := PrimFloat.sqrt x in
  if (PrimFloat.is_nan r && negb (PrimFloat.is_nan x))%bool
  then Raise (ValueError "math domain error")
  else Ok r.

(** Float true division: a zero divisor raises. *)
Definition float_truediv (x y : float) : Exc float :=
  if float_eq y 0%float then Raise ZeroDivisionError else Ok (x / y)%float.

Module Orbit.

Definition EARTH_RADIUS : float := 6378.137%float.
Definition EARTH_MU : float := 398600.4418%float.

Record t : Type := mk {
  id : string;
  name : string;
  label : string;
  semi_major_axis : float;
  eccentricity : float;
  inclination : float;
  raan : float;
  argument_of_perigee : float;
  true_anomaly : float;
  altitude : option float;
  perigee_altitude : option float;
  apogee_altitude : option float;
  orbital_period : option float;
  mean_motion : option float
}.

Section Derivation.

(** Python's [float ** float], which defers to the platform's libm [pow]
    and raises on overflow; it is not part of the repository and is taken
    as given. *)
Variable float_pow : float -> float -> Exc float.

Definition post_init (self : t) : Exc t :=
  let a := semi_major_axis self in
  let e := eccentricity self in
  (* altitude for a circular orbit *)
  let alt :=
    match altitude self with
    | None => if float_lt e 0.001%float then Some (a - EARTH_RADIUS)%float else None
    | Some h => Some h
    end in
  (* perigee and apogee *)
  let peri :=
    if float_gt e 0%float then Some (a * (1 - e) - EARTH_RADIUS)%float
    else perigee_altitude self in
  let apo :=
    if float_gt e 0%float then Some (a * (1 + e) - EARTH_RADIUS)%float
    else apogee_altitude self in
  (* orbital period, minutes *)
  do a3 <- float_pow a 3%float;
  do root <- math_sqrt (a3 / EARTH_MU)%float;
  let period := (2 * math_pi * root / 60)%float in
  (* mean motion, revolutions per day *)
  do mm <- float_truediv 1440%float period;
  Ok (mk (id self) (name self) (label self) a e (inclination self) (raan self)
         (argument_of_perigee self) (true_anomaly self)
         alt peri apo (Some period) (Some mm)).

(** The constructor as its callers use it: identity, the six elements and
    an optional altitude; the other derived fields start at [None]. *)
Definition new (id name label : string) (a e i raan argp nu : float)
  (altitude : option float) : Exc t :=
  post_init (mk id name label a e i raan argp nu altitude None None None None).

End Derivation.

End Orbit.

(** ** PayloadInstrument *)

Module PayloadInstrument.

Record t : Type := mk {
  id : string;
  name : string;
  focal_length : float;
  aperture_diameter : float;
  f_number : float;
  detector_array_size_across_track : Z;
  pixel_pitch : float;
  ground_sample_distance : float;
  swath_width : float
}.

Definition set_ground_sample_distance (self : t) (g : float) : t :=
  mk (id self) (name self) (focal_length self) (aperture_diameter self)
     (f_number self) (detector_array_size_across_track self) (pixel_pitch self)
     g (swath_width self).

Definition calculate_gsd_from_orbit (self : t) (altitude_km : float) : float * t :=
  let self' :=
    if (float_gt (focal_length self) 0%float && float_gt (pixel_pitch self) 0%float)%bool
    then
      let altitude_m := (altitude_km * 1000)%float in
      set_ground_sample_distance self
        ((altitude_m * pixel_pitch self * 1e-6) / focal_length self)%float
    else self in
  (ground_sample_distance self', self').

Definition set_f_number (self : t) (f : float) : t :=
  mk (id self) (name self) (focal_length self) (aperture_diameter self)
     f (detector_array_size_across_track self) (pixel_pitch self)
     (ground_sample_distance self) (swath_width self).

(** The quotient is taken with Python's division, which raises on a zero
    divisor. *)
Definition calculate_f_number (self : t) : Exc (float * t) :=
  if float_gt (aperture_diameter self) 0%float
  then
    do q <- float_truediv (focal_length self) (aperture_diameter self);
    Ok (q, set_f_number self q)
  else Ok (f_number self, self).

End PayloadInstrument.

(** ** Design solutions and their evaluation *)

(** A [datetime], as far as the engine looks at it: its rendering. *)
Definition datetime : Type := string.

Module DesignSolution.

(** The spacecraft and the orbit a solution bundles are never read by the
    operations below and are left out. *)
Record t : Type := mk {
  id : string;
  name : string;
  label : string;
  status : SolutionStatus;
  notes : string
}.

End DesignSolution.

Module KPIEvaluation.

Record t : Type := mk {
  kpi_id : string;
  kpi_name : string;
  calculated_value : float;
  unit : Unit;
  status : ObjectiveStatus;
  threshold_met : bool;
  baseline_met : bool;
  target_met : bool
}.

End KPIEvaluation.

Module FOMEvaluation.

Record t : Type := mk {
  fom_id : string;
  fom_name : string;
  calculated_value : float;
  target_value : option float;
  meets_target : bool
}.

End FOMEvaluation.

Module RequirementVerification.

Record t : Type := mk {
  requirement_id : string;
  requirement_title : string;
  required_value : string;
  calculated_value : float;
  unit : Unit;
  verified : bool;
  margin : float
}.

End RequirementVerification.

Module ConstraintVerification.

Record t : Type := mk {
  constraint_id : string;
  constraint_title : string;
  constraint_value : string;
  calculated_value : float;
  unit : Unit;
  verified : bool;
  margin : float;
  is_negotiable : bool
}.

End ConstraintVerification.

(** [d.values()] and [len(d)] of a dictionary. *)
Definition values {V : Type} (d : gmap string V) : list V := (map_to_list d).*2.
Definition len {V : Type} (d : gmap string V) : nat := length (values d).

(** [sum(1 for x in xs if p(x))]. *)
Definition count_if {V : Type} (p : V -> bool) (xs : list V) : nat :=
  length (List.filter p xs).

(** [(k / n) * 100] for two counts, as the exact rational. The code holds
    its binary64 rounding (the quotient rounded, then the product rounded);
    what is stated of a rate below is its comparison with 100 and its
    being left as it was. *)
Definition percentage (k n : nat) : Q :=
  (inject_Z (Z.of_nat k) / inject_Z (Z.of_nat n) * 100)%Q.

Module SolutionEvaluation.

Record t : Type := mk {
  id : string;
  solution_id : string;
  solution_label : string;
  evaluation_date : datetime;
  kpi_evaluations : gmap string KPIEvaluation.t;
  fom_evaluations : gmap string FOMEvaluation.t;
  requirement_verifications : gmap string RequirementVerification.t;
  constraint_verifications : gmap string ConstraintVerification.t;
  all_requirements_met : bool;
  all_critical_constraints_met : bool;
  overall_status : SolutionStatus;
  kpi_success_rate : Q;
  requirement_success_rate : Q;
  constraint_success_rate : Q
}.

(** The constructor with every defaulted field at its default. *)
Definition new (id solution_id solution_label : string) (now : datetime) : t :=
  mk id solution_id solution_label now ∅ ∅ ∅ ∅ false false UNDER_EVALUATION 0 0 0.

Definition add_kpi_evaluation (self : t) (kpi_eval : KPIEvaluation.t) : t :=
  mk (id self) (solution_id self) (solution_label self) (evaluation_date self)
     (<[KPIEvaluation.kpi_id kpi_eval := kpi_eval]> (kpi_evaluations self))
     (fom_evaluations self) (requirement_verifications self)
     (constraint_verifications self) (all_requirements_met self)
     (all_critical_constraints_met self) (overall_status self)
     (kpi_success_rate self) (requirement_success_rate self)
     (constraint_success_rate self).

Definition add_fom_evaluation (self : t) (fom_eval : FOMEvaluation.t) : t :=
  mk (id self) (solution_id self) (solution_label self) (evaluation_date self)
     (kpi_evaluations self)
     (<[FOMEvaluation.fom_id fom_eval := fom_eval]> (fom_evaluations self))
     (requirement_verifications self)
     (constraint_verifications self) (all_requirements_met self)
     (all_critical_constraints_met self) (overall_status self)
     (kpi_success_rate self) (requirement_success_rate self)
     (constraint_success_rate self).

Definition add_requirement_verification (self : t) (req_ver : RequirementVerification.t) : t :=
  mk (id self) (solution_id self) (solution_label self) (evaluation_date self)
     (kpi_evaluations self) (fom_evaluations self)
     (<[RequirementVerification.requirement_id req_ver := req_ver]>
        (requirement_verifications self))
     (constraint_verifications self) (all_requirements_met self)
     (all_critical_constraints_met self) (overall_status self)
     (kpi_success_rate self) (requirement_success_rate self)
     (constraint_success_rate self).

Definition add_constraint_verification (self : t) (const_ver : ConstraintVerification.t) : t :=
  mk (id self) (solution_id self) (solution_label self) (evaluation_date self)
     (kpi_evaluations self) (fom_evaluations self) (requirement_verifications self)
     (<[ConstraintVerification.constraint_id const_ver := const_ver]>
        (constraint_verifications self))
     (all_requirements_met self)
     (all_critical_constraints_met self) (overall_status self)
     (kpi_success_rate self) (requirement_success_rate self)
     (constraint_success_rate self).

(** The three blocks of [calculate_success_rates], each as the values it
    leaves in the fields it assigns. *)

Definition kpi_block (self : t) : Q :=
  match values (kpi_evaluations self) with
  | [] => kpi_success_rate self
  | vs =>
      let kpi_success := count_if KPIEvaluation.threshold_met vs in
      percentage kpi_success (len (kpi_evaluations self))
  end.

Definition requirement_block (self : t) : Q * bool :=
  match values (requirement_verifications self) with
  | [] => (requirement_success_rate self, all_requirements_met self)
  | vs =>
      let req_success := count_if RequirementVerification.verified vs in
      (percentage req_success (len (requirement_verifications self)),
       Nat.eqb req_success (len (requirement_verifications self)))
  end.

Definition constraint_block (self : t) : Q * bool :=
  match values (constraint_verifications self) with
  | [] => (constraint_success_rate self, all_critical_constraints_met self)
  | vs =>
      let const_success := count_if ConstraintVerification.verified vs in
      let rate := percentage const_success (len (constraint_verifications self)) in
      let critical_constraints :=
        List.filter (fun c => negb (ConstraintVerification.is_negotiable c)) vs in
      match critical_constraints with
      | [] => (rate, all_critical_constraints_met self)
      | _ =>
          let critical_met := count_if ConstraintVerification.verified critical_constraints in
          (rate, Nat.eqb critical_met (length critical_constraints))
      end
  end.

Definition calculate_success_rates (self : t) : t :=
  let k := kpi_block self in
  let r := requirement_block self in
  let c := constraint_block self in
  mk (id self) (solution_id self) (solution_label self) (evaluation_date self)
     (kpi_evaluations self) (fom_evaluations self) (requirement_verifications self)
     (constraint_verifications self)
     (snd r) (snd c) (overall_status self) k (fst r) (fst c).

Definition set_overall_status (self : t) (s : SolutionStatus) : t :=
  mk (id self) (solution_id self) (solution_label self) (evaluation_date self)
     (kpi_evaluations self) (fom_evaluations self) (requirement_verifications self)
     (constraint_verifications self) (all_requirements_met self)
     (all_critical_constraints_met self) s
     (kpi_success_rate self) (requirement_success_rate self)
     (constraint_success_rate self).

Definition determine_overall_status (self : t) : t :=
  let self := calculate_success_rates self in
  if (all_requirements_met self && all_critical_constraints_met self)%bool
  then set_overall_status self REQUIREMENTS_MET
  else if (negb (all_requirements_met self) || negb (all_critical_constraints_met self))%bool
  then set_overall_status self REQUIREMENTS_NOT_MET
  else self.

End SolutionEvaluation.

(** ** Mission *)

Module Mission.

(** The objectives, requirements, constraints and design iterations a
    mission also owns are lists the operation below neither reads nor
    writes. *)
Record t : Type := mk {
  id : string;
  name : string;
  description : string;
  design_solutions : list DesignSolution.t;
  solution_evaluations : gmap string SolutionEvaluation.t;
  baseline_solution_id : option string;
  selected_solution_id : option string;
  last_modified : datetime
}.

Fixpoint find_solution (sols : list DesignSolution.t) (solution_id : string)
  : option DesignSolution.t :=
  match sols with
  | [] => None
  | sol :: rest =>
      if String.eqb (DesignSolution.id sol) solution_id then Some sol
      else find_solution rest solution_id
  end.

Definition get_design_solution (self : t) (solution_id : string) : option DesignSolution.t :=
  find_solution (design_solutions self) solution_id.

(** The three readings of the clock one call makes, in order: for the
    evaluation id, for the evaluation's date, for [last_modified]. *)
Record clock : Type := mk_clock {
  at_id : datetime;
  at_date : datetime;
  at_store : datetime
}.

(** The returned evaluation is the object stored in the dictionary; the
    caller reaches it afterwards under the solution's id. *)
Definition evaluate_solution (self : t) (solution_id : string) (now : clock)
  : Exc (SolutionEvaluation.t * t) :=
  match get_design_solution self solution_id with
  | None => Raise (ValueError ("Solution " ++ solution_id ++ " not found"))
  | Some solution =>
      let eval_id := "EVAL-" ++ solution_id ++ "-" ++ at_id now in
      let evaluation :=
        SolutionEvaluation.new eval_id (DesignSolution.id solution)
          (DesignSolution.label solution) (at_date now) in
      Ok (evaluation,
          mk (id self) (name self) (description self) (design_solutions self)
             (<[DesignSolution.id solution := evaluation]> (solution_evaluations self))
             (baseline_solution_id self) (selected_solution_id self) (at_store now))
  end.

(** What a caller does with the evaluation it was handed: it mutates the
    stored object in place. *)
Definition update_evaluation (self : t) (solution_id : string)
  (f : SolutionEvaluation.t -> SolutionEvaluation.t) : t :=
  mk (id self) (name self) (description self) (design_solutions self)
     (alter f solution_id (solution_evaluations self))
     (baseline_solution_id self) (selected_solution_id self) (last_modified self).

Definition set_last_modified (self : t) (now : datetime) : t :=
  mk (id self) (name self) (description self) (design_solutions self)
     (solution_evaluations self) (baseline_solution_id self)
     (selected_solution_id self) now.

Definition add_design_solution (self : t) (solution : DesignSolution.t) (now : datetime)
  : string * t :=
  (DesignSolution.id solution,
   mk (id self) (name self) (description self) (design_solutions self ++ [solution])%list
      (solution_evaluations self) (baseline_solution_id self)
      (selected_solution_id self) now).


End Mission.

(** ** Geographic models *)

Module GeoPoint.

Record t : Type := mk {
  latitude : float;
  longitude : float;
  altitude : option float;
  name : string
}.

(** The messages also render the offending coordinate; the rendering is
    left out of the text. *)
Definition post_init (self : t) : Exc t :=
  if negb (float_le (-90)%float (latitude self) && float_le (latitude self) 90%float)
  then Raise (ValueError "Latitude must be [-90, 90]")
  else if negb (float_le (-180)%float (longitude self)
                && float_le (longitude self) 180%float)
  then Raise (ValueError "Longitude must be [-180, 180]")
  else Ok self.

(** [GeoPoint(lat, lon)]: no altitude, no name. *)
Definition new (lat lon : float) : Exc t := post_init (mk lat lon None "").

Definition to_tuple (self : t) : float * float := (latitude self, longitude self).

End GeoPoint.

(** The builtins [min] and [max] over a non-empty list: the first element,
    replaced by each later one that compares strictly below (above) it. *)
Definition py_min (x : float) (xs : list float) : float :=
  fold_left (fun m y => if float_lt y m then y else m) xs x.

Definition py_max (x : float) (xs : list float) : float :=
  fold_left (fun m y => if float_gt y m then y else m) xs x.

Module GeoPolygon.

Record t : Type := mk {
  points : list GeoPoint.t;
  name : string;
  description : string
}.

Definition post_init (self : t) : Exc t :=
  let n := length (points self) in
  if Nat.ltb 20 n then Raise (ValueError "Max 20 points")
  else if (Nat.ltb 0 n && Nat.ltb n 3)%bool
  then Raise (ValueError "Need 3+ points for polygon")
  else Ok self.

Definition new (points : list GeoPoint.t) (name : string) : Exc t :=
  post_init (mk points name "").

Definition add_point (self : t) (point : GeoPoint.t) : Exc t :=
  if Nat.leb 20 (length (points self))
  then Raise (ValueError "Already at max 20 points")
  else Ok (mk (points self ++ [point])%list (name self) (description self)).

(** [(min_lat, max_lat, min_lon, max_lon)]. *)
Definition get_bounding_box (self : t) : float * float * float * float :=
  match points self with
  | [] => (0, 0, 0, 0)%float
  | p :: ps =>
      let lats := map GeoPoint.latitude ps in
      let lons := map GeoPoint.longitude ps in
      (py_min (GeoPoint.latitude p) lats, py_max (GeoPoint.latitude p) lats,
       py_min (GeoPoint.longitude p) lons, py_max (GeoPoint.longitude p) lons)
  end.

(** The five corners are built left to right, then the polygon. *)
Definition from_bounding_box (min_lat max_lat min_lon max_lon : float) (name : string)
  : Exc t :=
  do p1 <- GeoPoint.new min_lat min_lon;
  do p2 <- GeoPoint.new min_lat max_lon;
  do p3 <- GeoPoint.new max_lat max_lon;
  do p4 <- GeoPoint.new max_lat min_lon;
  do p5 <- GeoPoint.new min_lat min_lon;
  new [p1; p2; p3; p4; p5] name.

Definition global_coverage : Exc t :=
  from_bounding_box (-90)%float 90%float (-180)%float 180%float "Global Coverage".

End GeoPolygon.

(** ** Spacecraft components *)

Module ComponentType.

Inductive t : Type :=
| ELECTRIC_POWER_SYSTEM
| ADCS
| PAYLOAD_INSTRUMENT
| COMMUNICATIONS
| PLATFORM_AVIONICS
| PAYLOAD_AVIONICS
| PROPULSION
| THERMAL
| STRUCTURE
| OTHER.

Definition value (c : t) : string :=
  match c with
  | ELECTRIC_POWER_SYSTEM => "eps"
  | ADCS => "adcs"
  | PAYLOAD_INSTRUMENT => "payload_instrument"
  | COMMUNICATIONS => "communications"
  | PLATFORM_AVIONICS => "platform_avionics"
  | PAYLOAD_AVIONICS => "payload_avionics"
  | PROPULSION => "propulsion"
  | THERMAL => "thermal"
  | STRUCTURE => "structure"
  | OTHER => "other"
  end.

#[global] Instance eq_dec : EqDecision t.
Proof. solve_decision. Defined.

End ComponentType.

Module Component.

Record t : Type := mk {
  id : string;
  name : string;
  component_type : ComponentType.t;
  active_power : float;
  passive_power : float;
  mass : float;
  cost : float
}.

End Component.

Module Spacecraft.

Record t : Type := mk {
  id : string;
  name : string;
  components : list Component.t;
  dry_mass_margin : float;
  power_margin : float;
  cost_margin : float;
  design_life : float
}.

Definition add_component (self : t) (component : Component.t) : t :=
  mk (id self) (name self) (components self ++ [component])%list
     (dry_mass_margin self) (power_margin self) (cost_margin self) (design_life self).

Fixpoint find_component (comps : list Component.t) (component_id : string)
  : option Component.t :=
  match comps with
  | [] => None
  | comp :: rest =>
      if String.eqb (Component.id comp) component_id then Some comp
      else find_component rest component_id
  end.

Definition get_component_by_id (self : t) (component_id : string) : option Component.t :=
  find_component (components self) component_id.

Definition get_components_by_type (self : t) (component_type : ComponentType.t)
  : list Component.t :=
  List.filter (fun c => bool_decide (Component.component_type c = component_type))
    (components self).

(** One turn of the breakdown loops:
    [breakdown[subsys] = breakdown.get(subsys, 0.0) + quantity]. *)
Definition accumulate (quantity : Component.t -> float)
  (breakdown : gmap string float) (comp : Component.t) : gmap string float :=
  let subsys := ComponentType.value (Component.component_type comp) in
  <[subsys := (default 0%float (breakdown !! subsys) + quantity comp)%float]> breakdown.

Definition calculate_mass_by_subsystem (self : t) : gmap string float :=
  fold_left (accumulate Component.mass) (components self) ∅.

Definition calculate_power_by_subsystem (self : t) (mode : string) : gmap string float :=
  fold_left
    (accumulate (fun comp =>
                   if String.eqb mode "active" then Component.active_power comp
                   else Component.passive_power comp))
    (components self) ∅.

End Spacecraft.

(** ** Requirements and constraints *)

Module RequirementType.

Inductive t : Type :=
| SPATIAL_RESOLUTION
| TEMPORAL_RESOLUTION
| SPECTRAL_RESOLUTION
| RADIOMETRIC_RESOLUTION
| SWATH_WIDTH
| COVERAGE_AREA
| DATA_LATENCY
| GEOLOCATION_ACCURACY
| SIGNAL_TO_NOISE_RATIO
| MISSION_LIFETIME
| OTHER.

#[global] Instance eq_dec : EqDecision t.
Proof. solve_decision. Defined.

End RequirementType.

Module ConstraintType.

Inductive t : Type :=
| BUDGET
| ORBITAL
| TECHNOLOGY
| REGULATORY
| PHYSICAL
| SCHEDULE
| MASS
| POWER
| DATA_VOLUME
| OTHER.

#[global] Instance eq_dec : EqDecision t.
Proof. solve_decision. Defined.

End ConstraintType.

Module Priority.

Inductive t : Type :=
| CRITICAL
| HIGH
| MEDIUM
| LOW.

End Priority.

#[global] Instance Unit_eq_dec : EqDecision Unit.
Proof. solve_decision. Defined.

(** [unit in [u1, u2, ...]]. *)
Definition unit_in (u : Unit) (allowed : list Unit) : bool :=
  existsb (fun a => bool_decide (u = a)) allowed.

Module Requirement.

(** The region, band list and coverage share that some subclasses add are
    left out; no method below reads them. *)
Record t : Type := mk {
  id : string;
  title : string;
  requirement_type : RequirementType.t;
  constraint : NumericConstraintValue.t;
  priority : Priority.t;
  rationale : string
}.

Definition verify (self : t) (actual_value : float) : Exc bool :=
  NumericConstraintValue.evaluate (constraint self) actual_value.

(** The shape the subclass constructors share: the unit test, then the
    base constructor with the subclass's type tag. [priority] and
    [rationale] are the keyword arguments passed on. *)
Definition typed (allowed : list Unit) (msg : string) (rt : RequirementType.t)
  (id title : string) (constraint : NumericConstraintValue.t)
  (priority : Priority.t) (rationale : string) : Exc t :=
  if negb (unit_in (NumericConstraintValue.unit constraint) allowed)
  then Raise (ValueError msg)
  else Ok (mk id title rt constraint priority rationale).

Definition SpatialResolutionRequirement :=
  typed [METERS; KILOMETERS; CENTIMETERS]
    "Spatial resolution must use distance units" RequirementType.SPATIAL_RESOLUTION.

Definition TemporalResolutionRequirement :=
  typed [DAYS; HOURS; MINUTES]
    "Temporal resolution must use time units" RequirementType.TEMPORAL_RESOLUTION.

Definition SpectralResolutionRequirement :=
  typed [NANOMETERS; MICROMETERS; COUNT]
    "Spectral resolution must use wavelength or count units"
    RequirementType.SPECTRAL_RESOLUTION.

Definition RadiometricResolutionRequirement :=
  typed [BITS; COUNT]
    "Radiometric resolution must use bits or count" RequirementType.RADIOMETRIC_RESOLUTION.

Definition SwathWidthRequirement :=
  typed [KILOMETERS; METERS]
    "Swath width must use distance units" RequirementType.SWATH_WIDTH.

Definition CoverageAreaRequirement :=
  typed [PERCENT; KILOMETERS]
    "Coverage area must use percent or area units" RequirementType.COVERAGE_AREA.

Definition DataLatencyRequirement :=
  typed [HOURS; MINUTES; DAYS]
    "Data latency must use time units" RequirementType.DATA_LATENCY.

End Requirement.

Module Constraint.

Record t : Type := mk {
  id : string;
  title : string;
  constraint_type : ConstraintType.t;
  constraint : NumericConstraintValue.t;
  priority : Priority.t;
  rationale : string;
  is_negotiable : bool
}.

Definition verify (self : t) (actual_value : float) : Exc bool :=
  NumericConstraintValue.evaluate (constraint self) actual_value.

Definition typed (allowed : list Unit) (msg : string) (ct : ConstraintType.t)
  (id title : string) (constraint : NumericConstraintValue.t)
  (priority : Priority.t) (rationale : string) (is_negotiable : bool) : Exc t :=
  if negb (unit_in (NumericConstraintValue.unit constraint) allowed)
  then Raise (ValueError msg)
  else Ok (mk id title ct constraint priority rationale is_negotiable).

Definition BudgetConstraint :=
  typed [USD; EUR] "Budget must use currency units" ConstraintType.BUDGET.

(** The orbital constraint tests no unit. *)
Definition OrbitalConstraint (id title : string) (constraint : NumericConstraintValue.t)
  (priority : Priority.t) (rationale : string) (is_negotiable : bool) : Exc t :=
  Ok (mk id title ConstraintType.ORBITAL constraint priority rationale is_negotiable).

Definition MassConstraint :=
  typed [KILOGRAMS; GRAMS; TONNES] "Mass must use mass units" ConstraintType.MASS.

Definition PowerConstraint :=
  typed [WATTS; KILOWATTS] "Power must use power units" ConstraintType.POWER.

Definition ScheduleConstraint :=
  typed [DAYS; YEARS] "Schedule must use time units" ConstraintType.SCHEDULE.

End Constraint.

(** ** The rest of the mission *)

Module DesignIteration.

(** The solution and the evaluation are the objects handed to
    [add_design_iteration], as they stand at the call. *)
Record t : Type := mk {
  iteration_number : nat;
  solution : DesignSolution.t;
  evaluation : SolutionEvaluation.t;
  created_date : datetime;
  iteration_notes : string;
  changes_from_previous : string
}.

End DesignIteration.

(** The whole [Mission] object: [Mission.t] above holds what the solution
    registry works on, the lists below are its remaining fields. *)
Module MissionLists.

Record t : Type := mk {
  registry : Mission.t;
  objectives : list MissionObjective.t;
  requirements : list Requirement.t;
  constraints : list Constraint.t;
  design_iterations : list DesignIteration.t
}.

Definition add_objective (self : t) (objective : MissionObjective.t) (now : datetime) : t :=
  mk (Mission.set_last_modified (registry self) now)
     (objectives self ++ [objective])%list (requirements self) (constraints self)
     (design_iterations self).

Definition add_requirement (self : t) (requirement : Requirement.t) (now : datetime) : t :=
  mk (Mission.set_last_modified (registry self) now)
     (objectives self) (requirements self ++ [requirement])%list (constraints self)
     (design_iterations self).

Definition add_constraint (self : t) (constraint : Constraint.t) (now : datetime) : t :=
  mk (Mission.set_last_modified (registry self) now)
     (objectives self) (requirements self) (constraints self ++ [constraint])%list
     (design_iterations self).

(** [now] is read twice: for the iteration's date, for [last_modified]. *)
Definition add_design_iteration (self : t) (solution : DesignSolution.t)
  (evaluation : SolutionEvaluation.t) (changes notes : string)
  (created modified : datetime) : DesignIteration.t * t :=
  let iteration_num := length (design_iterations self) + 1 in
  let iteration :=
    DesignIteration.mk iteration_num solution evaluation created notes changes in
  (iteration,
   mk (Mission.set_last_modified (registry self) modified)
      (objectives self) (requirements self) (constraints self)
      (design_iterations self ++ [iteration])%list).

Definition get_requirements_by_type (self : t) (req_type : RequirementType.t)
  : list Requirement.t :=
  List.filter (fun r => bool_decide (Requirement.requirement_type r = req_type))
    (requirements self).

Definition get_constraints_by_type (self : t) (const_type : ConstraintType.t)
  : list Constraint.t :=
  List.filter (fun c => bool_decide (Constraint.constraint_type c = const_type))
    (constraints self).

(** [next((r for r in xs if r.id == key), None)]. *)
Fixpoint first_with_id {A : Type} (id_of : A -> string) (xs : list A) (key : string)
  : option A :=
  match xs with
  | [] => None
  | x :: rest =>
      if String.eqb (id_of x) key then Some x else first_with_id id_of rest key
  end.

Definition verify_requirement (self : t) (requirement_id : string) (actual_value : float)
  : Exc bool :=
  match first_with_id Requirement.id (requirements self) requirement_id with
  | Some req => Requirement.verify req actual_value
  | None => Ok false
  end.

Definition verify_constraint (self : t) (constraint_id : string) (actual_value : float)
  : Exc bool :=
  match first_with_id Constraint.id (constraints self) constraint_id with
  | Some const => Constraint.verify const actual_value
  | None => Ok false
  end.

End MissionLists.

(** * Specification vocabulary and sample objects *)

Local Open Scope float_scope.

(** The malformed operator/value shapes of a [NumericConstraintValue]. *)
Definition malformed (op : ComparisonOperator) (v mn mx : option float) : Prop :=
  (op = BETWEEN /\ (mn = None \/ mx = None)) \/
  (op = BETWEEN /\ exists lo hi, mn = Some lo /\ mx = Some hi /\ (hi <=? lo) = true) \/
  (op <> BETWEEN /\ v = None).

(** The comparison of doubles an operator names, [x] being the actual value
    and [v] the value of the tier. [between] names none on a tier. *)
Definition compares (op : ComparisonOperator) (x v : float) : Prop :=
  match op with
  | LESS_THAN => (x <? v) = true
  | LESS_THAN_OR_EQUAL => (x <=? v) = true
  | EQUAL => (x =? v) = true
  | GREATER_THAN_OR_EQUAL => (v <=? x) = true
  | GREATER_THAN => (v <? x) = true
  | NOT_EQUAL => (x =? v) = false
  | BETWEEN => False
  end.

(** [th] is the tier a list of thresholds defines under a (lowercase) name:
    the first entry of the list whose level, lowercased, is the name. *)
Definition defines (ths : list PerformanceThreshold.t) (name : string)
  (th : PerformanceThreshold.t) : Prop :=
  exists before after,
    ths = (before ++ th :: after)%list /\
    lower (PerformanceThreshold.level th) = name /\
    Forall (fun t => lower (PerformanceThreshold.level t) <> name) before.

(** A tier of a KPI is met by a value when the list of thresholds of the
    KPI defines it and the tier's own operator and value accept the value. *)
Definition tier_met (k : KeyPerformanceIndicator.t) (name : string) (x : float) : Prop :=
  exists th, defines (KeyPerformanceIndicator.thresholds k) name th /\
             compares (PerformanceThreshold.operator th) x (PerformanceThreshold.value th).

(** [str.isascii]: every character of the string is below 128. On such
    strings [lower] is Python's [str.lower]. *)
Fixpoint isascii (s : string) : bool :=
  match s with
  | EmptyString => true
  | String c s' => (Nat.ltb (nat_of_ascii c) 128 && isascii s')%bool
  end.

(** Every threshold of the KPI has a level in ASCII. *)
Definition ascii_levels (k : KeyPerformanceIndicator.t) : Prop :=
  Forall (fun t => isascii (PerformanceThreshold.level t) = true)
         (KeyPerformanceIndicator.thresholds k).

(** [r] is a weakest status among [children]: it occurs there and no child
    ranks below it. *)
Definition weakest_of (children : list ObjectiveStatus) (r : ObjectiveStatus) : Prop :=
  In r children /\ forall s, In s children -> (status_values r <= status_values s)%Z.

(** The shape both [evaluate_objective] methods share: no child, no
    verdict; otherwise the loop's answer over the child statuses. *)
Definition aggregate (children : list ObjectiveStatus) : ObjectiveStatus :=
  match children with
  | [] => NOT_EVALUATED
  | _ :: _ => min_loop children
  end.

(** An evaluation as the constructor leaves it: nothing recorded, nothing
    met, under evaluation. *)
Definition fresh (ev : SolutionEvaluation.t) : Prop :=
  SolutionEvaluation.kpi_evaluations ev = ∅ /\
  SolutionEvaluation.fom_evaluations ev = ∅ /\
  SolutionEvaluation.requirement_verifications ev = ∅ /\
  SolutionEvaluation.constraint_verifications ev = ∅ /\
  SolutionEvaluation.all_requirements_met ev = false /\
  SolutionEvaluation.all_critical_constraints_met ev = false /\
  SolutionEvaluation.overall_status ev = UNDER_EVALUATION.

(** The tiers of the ground-sample-distance KPI: target <= 10,
    baseline <= 15, threshold <= 30, all in meters. *)
Definition kpi_gsd : KeyPerformanceIndicator.t :=
  KeyPerformanceIndicator.mk "KPI-001" "Ground Sample Distance" "" METERS
    [ PerformanceThreshold.mk "threshold" 30 METERS LESS_THAN_OR_EQUAL "";
      PerformanceThreshold.mk "baseline" 15 METERS LESS_THAN_OR_EQUAL "";
      PerformanceThreshold.mk "target" 10 METERS LESS_THAN_OR_EQUAL "" ]
    1 None NOT_EVALUATED.

(** A KPI that defines the baseline tier only. *)
Definition kpi_revisit : KeyPerformanceIndicator.t :=
  KeyPerformanceIndicator.mk "KPI-002" "Revisit Time" "" DAYS
    [ PerformanceThreshold.mk "Baseline" 3 DAYS LESS_THAN_OR_EQUAL "" ]
    1 None NOT_EVALUATED.

Definition between_tier : PerformanceThreshold.t :=
  PerformanceThreshold.mk "target" 10 METERS BETWEEN "".

(** A quantitative objective whose only KPI has not been evaluated yet, and
    a mission objective whose only quantitative objective has no KPI. *)
Definition qo_pending : QuantitativeObjective.t :=
  QuantitativeObjective.mk "QO-001" "OBJ-001" "Resolution" "" [kpi_gsd].

Definition mo_pending : MissionObjective.t :=
  MissionObjective.mk "OBJ-001" "Global monitoring" ""
    [QuantitativeObjective.mk "QO-002" "OBJ-001" "Coverage" "" []].

(** Verification records. *)
Definition cv_mass : ConstraintVerification.t :=
  ConstraintVerification.mk "CON-MASS" "Launch mass" "<= 1500 kg" 1200 KILOGRAMS
    true 300 false.

Definition cv_schedule : ConstraintVerification.t :=
  ConstraintVerification.mk "CON-SCHED" "Schedule" "<= 36 months" 40 COUNT
    false (-4) true.

Definition rv_gsd : RequirementVerification.t :=
  RequirementVerification.mk "REQ-001" "Spatial resolution" "<= 15 m" 13 METERS true 2.

Definition eval0 : SolutionEvaluation.t :=
  SolutionEvaluation.new "EVAL-SOL-001-20250101000000" "SOL-001" "Baseline" "2025-01-01".

(** One failing negotiable constraint, one passing non-negotiable one. *)
Definition eval_gated : SolutionEvaluation.t :=
  SolutionEvaluation.add_constraint_verification
    (SolutionEvaluation.add_constraint_verification eval0 cv_mass) cv_schedule.

(** One failing negotiable constraint and no non-negotiable one. *)
Definition eval_negotiable_only : SolutionEvaluation.t :=
  SolutionEvaluation.add_constraint_verification eval0 cv_schedule.

(** Every requirement verified, no constraint recorded. *)
Definition eval_requirements_only : SolutionEvaluation.t :=
  SolutionEvaluation.add_requirement_verification eval0 rv_gsd.

(** A mission holding one proposed solution. *)
Definition sol_001 : DesignSolution.t :=
  DesignSolution.mk "SOL-001" "Baseline Design Solution" "Baseline: 15m @ 705km"
    PROPOSED "".

Definition mission0 : Mission.t :=
  Mission.mk "M-001" "GlobalWatch" "" [sol_001] ∅ (Some "SOL-001") None "2025-01-01".

Definition tick (s : string) : Mission.clock := Mission.mk_clock s s s.

(** A power for the sample orbits: the cube by two multiplications. On
    7000 and on 7083.137 it is the value any libm returns to within a
    rounding; nothing below depends on more than that. *)
Definition cube_pow (x y : float) : Exc float := Ok (x * x * x).

(** The heritage imager of the demonstration data. *)
Definition payload_15m : PayloadInstrument.t :=
  PayloadInstrument.mk "PL-15M" "Heritage 15m Imager" 1.85 0.30 0 14624 13.0 0 0.

(** A double that is not NaN. *)
Definition ordered (x : float) : Prop := PrimFloat.is_nan x = false.

(** The range test of the [GeoPoint] constructor. *)
Definition in_range (p : GeoPoint.t) : Prop :=
  (-90 <=? GeoPoint.latitude p) = true /\ (GeoPoint.latitude p <=? 90) = true /\
  (-180 <=? GeoPoint.longitude p) = true /\ (GeoPoint.longitude p <=? 180) = true.

(** Sample points: Paris, Nairobi, Lima. *)
Definition pt_paris : GeoPoint.t := GeoPoint.mk 48.85 2.35 None "Paris".
Definition pt_nairobi : GeoPoint.t := GeoPoint.mk (-1.29) 36.82 None "Nairobi".
Definition pt_lima : GeoPoint.t := GeoPoint.mk (-12.05) (-77.04) None "Lima".

Definition triangle : GeoPolygon.t :=
  GeoPolygon.mk [pt_paris; pt_nairobi; pt_lima] "Triangle" "".

(** Two quantitative objectives whose KPIs have been evaluated, and the
    mission objective they belong to. *)
Definition qo_resolution : QuantitativeObjective.t :=
  QuantitativeObjective.mk "QO-001" "OBJ-001" "Resolution" ""
    [snd (KeyPerformanceIndicator.evaluate_performance kpi_gsd 13)].

Definition qo_revisit : QuantitativeObjective.t :=
  QuantitativeObjective.mk "QO-002" "OBJ-001" "Revisit" ""
    [snd (KeyPerformanceIndicator.evaluate_performance kpi_revisit 4)].

Definition qo_two_kpis : QuantitativeObjective.t :=
  QuantitativeObjective.mk "QO-003" "OBJ-001" "Resolution and revisit" ""
    [snd (KeyPerformanceIndicator.evaluate_performance kpi_gsd 13);
     snd (KeyPerformanceIndicator.evaluate_performance kpi_revisit 2)].

Definition mo_evaluated : MissionObjective.t :=
  MissionObjective.mk "OBJ-001" "Global monitoring" "" [qo_resolution; qo_revisit].

(** A failing non-negotiable constraint verification. *)
Definition cv_power : ConstraintVerification.t :=
  ConstraintVerification.mk "CON-POWER" "Bus power" "<= 800 W" 950 WATTS
    false (-150) false.

(** One verified requirement, one passing non-negotiable constraint. *)
Definition eval_passing : SolutionEvaluation.t :=
  SolutionEvaluation.add_requirement_verification
    (SolutionEvaluation.add_constraint_verification eval0 cv_mass) rv_gsd.



(** A requirement on ground sample distance, and the mission holding it. *)
Definition ncv_gsd : NumericConstraintValue.t :=
  NumericConstraintValue.mk LESS_THAN_OR_EQUAL (Some 15%float) None None METERS.

Definition req_spatial : Requirement.t :=
  Requirement.mk "REQ-001" "Spatial resolution" RequirementType.SPATIAL_RESOLUTION
    ncv_gsd Priority.CRITICAL "".

Definition mission_lists0 : MissionLists.t :=
  MissionLists.mk mission0 [] [req_spatial] [] [].

(** A constraint value whose unit was left at the default. *)
Definition ncv_unitless : NumericConstraintValue.t :=
  NumericConstraintValue.mk LESS_THAN_OR_EQUAL (Some 15%float) None None UNITLESS.

(** A second solution carrying the id of [sol_001]. *)
Definition sol_duplicate : DesignSolution.t :=
  DesignSolution.mk "SOL-001" "Alternative" "Alternative: 10m @ 650km" PROPOSED "".

(** A small bus: two power components and a radio. *)
Definition comp_battery : Component.t :=
  Component.mk "EPS-BAT" "Battery" ComponentType.ELECTRIC_POWER_SYSTEM 0 5 95 1200000.

Definition comp_array : Component.t :=
  Component.mk "EPS-SA" "Solar array" ComponentType.ELECTRIC_POWER_SYSTEM 0 0 185 3500000.

Definition comp_radio : Component.t :=
  Component.mk "COM-X" "X-band radio" ComponentType.COMMUNICATIONS 65 10 24 1800000.

Definition sc_bus : Spacecraft.t :=
  Spacecraft.mk "SC-001" "Bus" [comp_battery; comp_array; comp_radio] 20 30 25 5.

(** * Properties *)

(** ** Comparator semantics of [NumericConstraintValue] *)

Lemma ncv_new_inv op v mn mx u c :
  NumericConstraintValue.new op v mn mx u = Ok c ->
  c = NumericConstraintValue.mk op v mn mx u.
Proof.
  unfold NumericConstraintValue.new, NumericConstraintValue.post_init; simpl.
  destruct op; simpl;
    repeat match goal with
           | |- context [match ?o with Some _ => _ | None => _ end] => destruct o
           | |- context [if ?b then _ else _] => destruct b
           end; congruence.
Qed.

(** C5. On every object the constructor returns, [evaluate] returns, without
    raising, exactly the IEEE comparison its operator names: [x < value],
    [x <= value], [x == value], [x >= value], [x > value], [x != value], and
    [min_value <= x and x <= max_value] for [between]. The method is a
    function of the object and the test value alone; it assigns nothing. *)
Theorem ncv_evaluate_is_comparator
  (op : ComparisonOperator) (v mn mx : option float) (u : Unit)
  (c : NumericConstraintValue.t) (x : float) :
  NumericConstraintValue.new op v mn mx u = Ok c ->
  match op with
  | LESS_THAN =>
      exists val, v = Some val /\ NumericConstraintValue.evaluate c x = Ok (x <? val)
  | LESS_THAN_OR_EQUAL =>
      exists val, v = Some val /\ NumericConstraintValue.evaluate c x = Ok (x <=? val)
  | EQUAL =>
      exists val, v = Some val /\ NumericConstraintValue.evaluate c x = Ok (x =? val)
  | GREATER_THAN_OR_EQUAL =>
      exists val, v = Some val /\ NumericConstraintValue.evaluate c x = Ok (val <=? x)
  | GREATER_THAN =>
      exists val, v = Some val /\ NumericConstraintValue.evaluate c x = Ok (val <? x)
  | NOT_EQUAL =>
      exists val, v = Some val /\ NumericConstraintValue.evaluate c x = Ok (negb (x =? val))
  | BETWEEN =>
      exists lo hi, mn = Some lo /\ mx = Some hi /\
        NumericConstraintValue.evaluate c x = Ok ((lo <=? x) && (x <=? hi))%bool
  end.
Proof.
  intros Hnew. pose proof (ncv_new_inv _ _ _ _ _ _ Hnew) as ->.
  revert Hnew.
  unfold NumericConstraintValue.new, NumericConstraintValue.post_init,
    NumericConstraintValue.evaluate; simpl.
  destruct op; simpl.
  all: try (destruct v as [val|]; [intros _; exists val; split; reflexivity | discriminate]).
  destruct mn as [lo|]; [|discriminate].
  destruct mx as [hi|]; [|discriminate].
  intros _. exists lo, hi. repeat split.
  unfold float_le. destruct (lo <=? x); reflexivity.
Qed.

Lemma ncv_evaluate_is_comparator_witness :
  NumericConstraintValue.new BETWEEN None (Some 500) (Some 800) KILOMETERS
    = Ok (NumericConstraintValue.mk BETWEEN None (Some 500) (Some 800) KILOMETERS)
  /\ exists lo hi, Some 500 = Some lo /\ Some 800 = Some hi /\
       NumericConstraintValue.evaluate
         (NumericConstraintValue.mk BETWEEN None (Some 500) (Some 800) KILOMETERS) 705
       = Ok ((lo <=? 705) && (705 <=? hi))%bool.
Proof.
  split; [reflexivity|].
  exact (ncv_evaluate_is_comparator BETWEEN None (Some 500) (Some 800) KILOMETERS
           _ 705 eq_refl).
Defined.

(** ** Construction of [NumericConstraintValue] *)

(** C6. The constructor raises exactly on a malformed shape ([between]
    lacking a bound, [between] with [min_value >= max_value], another
    operator lacking [value]); a raise yields no object, and in every other
    case the object is returned with the fields it was given. *)
Theorem ncv_construction_fails_iff_malformed
  (op : ComparisonOperator) (v mn mx : option float) (u : Unit) :
  (raises (NumericConstraintValue.new op v mn mx u) <-> malformed op v mn mx) /\
  (~ malformed op v mn mx ->
   NumericConstraintValue.new op v mn mx u = Ok (NumericConstraintValue.mk op v mn mx u)) /\
  (malformed op v mn mx ->
   exists msg, NumericConstraintValue.new op v mn mx u = Raise (ValueError msg)).
Proof.
  assert (Hiff : raises (NumericConstraintValue.new op v mn mx u) <-> malformed op v mn mx).
  { unfold malformed, raises, NumericConstraintValue.new,
      NumericConstraintValue.post_init, float_ge; simpl.
    destruct op; simpl.
    all: try (destruct v; simpl;
              (split;
               [ first [ contradiction | intros _; right; right; split; congruence ]
               | first [ intros _; exact I
                       | intros [[? _]|[[? _]|[_ ?]]]; congruence ] ])).
    destruct mn as [lo|], mx as [hi|]; simpl;
      try (split; [intros _; left; split; [reflexivity | tauto] | intros _; exact I]).
    destruct (hi <=? lo) eqn:E; split.
    - intros _. right; left. split; [reflexivity|]. exists lo, hi. tauto.
    - intros _; exact I.
    - contradiction.
    - intros [[_ [?|?]]|[[_ (lo' & hi' & ? & ? & ?)]|[? _]]]; congruence. }
  split; [exact Hiff|]. split.
  - intros Hn. destruct (NumericConstraintValue.new op v mn mx u) as [c|e] eqn:E.
    + f_equal. eapply ncv_new_inv; eassumption.
    + exfalso. apply Hn, Hiff. exact I.
  - intros Hm. apply Hiff in Hm. revert Hm.
    unfold NumericConstraintValue.new, NumericConstraintValue.post_init; simpl.
    destruct op; simpl;
      repeat match goal with
             | |- context [match ?o with Some _ => _ | None => _ end] => destruct o
             | |- context [if ?b then _ else _] => destruct b
             end; simpl; try tauto; intros _; eexists; reflexivity.
Qed.

(** ** Tiered KPI evaluation *)

Lemma evaluate_compares th x :
  PerformanceThreshold.evaluate th x = true
  <-> compares (PerformanceThreshold.operator th) x (PerformanceThreshold.value th).
Proof.
  unfold PerformanceThreshold.evaluate, compares,
    float_lt, float_le, float_eq, float_ge, float_gt, float_ne.
  destruct (PerformanceThreshold.operator th); try tauto;
    try (split; [discriminate | contradiction]).
  destruct (x =? PerformanceThreshold.value th); simpl; split; congruence.
Qed.

Lemma find_level_defines ths name th :
  lower name = name ->
  KeyPerformanceIndicator.find_level ths name = Some th <-> defines ths name th.
Proof.
  intros Hname. split.
  - induction ths as [|t0 ths IH]; simpl; [discriminate|].
    rewrite Hname.
    destruct (String.eqb (lower (PerformanceThreshold.level t0)) name) eqn:E.
    + intros [= <-]. apply String.eqb_eq in E.
      exists [], ths. repeat split; [exact E | constructor].
    + intros Hf. apply String.eqb_neq in E.
      destruct (IH Hf) as (before & after & -> & Hl & Hb).
      exists (t0 :: before), after. repeat split; [exact Hl|].
      constructor; assumption.
  - intros (before & after & -> & Hl & Hb).
    induction before as [|t0 before IH]; simpl; rewrite Hname.
    + rewrite Hl, String.eqb_refl. reflexivity.
    + inversion Hb as [|? ? Hne Hb']; subst.
      apply String.eqb_neq in Hne. rewrite Hne.
      exact (IH Hb').
Qed.

Lemma tier_holds_met k name x :
  lower name = name ->
  KeyPerformanceIndicator.tier_holds (KeyPerformanceIndicator.get_threshold k name) x = true
  <-> tier_met k name x.
Proof.
  intros Hname.
  unfold tier_met, KeyPerformanceIndicator.tier_holds, KeyPerformanceIndicator.get_threshold.
  destruct (KeyPerformanceIndicator.find_level (KeyPerformanceIndicator.thresholds k) name)
    as [th|] eqn:E.
  - split.
    + intros H. exists th. split.
      * apply find_level_defines; assumption.
      * apply evaluate_compares. exact H.
    + intros (th' & Hd & Hc). apply (find_level_defines _ _ _ Hname) in Hd.
      rewrite E in Hd. injection Hd as <-. apply evaluate_compares. exact Hc.
  - split; [discriminate|].
    intros (th' & Hd & _). apply (find_level_defines _ _ _ Hname) in Hd.
    rewrite E in Hd. discriminate.
Qed.

(** Turns the reflection of a tier into the fact it stands for. *)
Ltac decide_tier H :=
  match type of H with
  | true = true <-> ?P => assert P by (apply H; reflexivity); clear H
  | false = true <-> ?P =>
      assert (~ P) by (let HP := fresh in intros HP; apply H in HP; discriminate HP);
      clear H
  end.

(** C3. [evaluate_performance] tries target, then baseline, then threshold,
    and answers with the first tier that is defined and accepts the value:
    a tier is defined by the first threshold of the KPI's list with that
    level, and it accepts the value when the comparison its own operator
    names holds between the value and its own value. An undefined tier is
    passed over, and the answer is [below_threshold] when no defined tier
    accepts. The answer is also what the KPI records as its status, next to
    the value it was given. On the tiers target <= 10, baseline <= 15,
    threshold <= 30 the values 8, 13, 25 and 40 give the four answers in
    turn. *)
Theorem evaluate_performance_first_tier (k : KeyPerformanceIndicator.t) (x : float) :
  let st := fst (KeyPerformanceIndicator.evaluate_performance k x) in
  let k' := snd (KeyPerformanceIndicator.evaluate_performance k x) in
  (st = TARGET_MET <-> tier_met k "target" x) /\
  (st = BASELINE_MET <-> ~ tier_met k "target" x /\ tier_met k "baseline" x) /\
  (st = THRESHOLD_MET <->
     ~ tier_met k "target" x /\ ~ tier_met k "baseline" x /\ tier_met k "threshold" x) /\
  (st = BELOW_THRESHOLD <->
     ~ tier_met k "target" x /\ ~ tier_met k "baseline" x /\ ~ tier_met k "threshold" x) /\
  KeyPerformanceIndicator.status k' = st /\
  KeyPerformanceIndicator.current_value k' = Some x /\
  KeyPerformanceIndicator.thresholds k' = KeyPerformanceIndicator.thresholds k /\
  (fst (KeyPerformanceIndicator.evaluate_performance kpi_gsd 8) = TARGET_MET /\
   fst (KeyPerformanceIndicator.evaluate_performance kpi_gsd 13) = BASELINE_MET /\
   fst (KeyPerformanceIndicator.evaluate_performance kpi_gsd 25) = THRESHOLD_MET /\
   fst (KeyPerformanceIndicator.evaluate_performance kpi_gsd 40) = BELOW_THRESHOLD).
Proof.
  cbv zeta.
  pose proof (tier_holds_met k "target" x eq_refl) as Ht.
  pose proof (tier_holds_met k "baseline" x eq_refl) as Hb.
  pose proof (tier_holds_met k "threshold" x eq_refl) as Hh.
  unfold KeyPerformanceIndicator.evaluate_performance; cbn [fst snd].
  destruct (KeyPerformanceIndicator.tier_holds
              (KeyPerformanceIndicator.get_threshold k "target") x);
  destruct (KeyPerformanceIndicator.tier_holds
              (KeyPerformanceIndicator.get_threshold k "baseline") x);
  destruct (KeyPerformanceIndicator.tier_holds
              (KeyPerformanceIndicator.get_threshold k "threshold") x);
  decide_tier Ht; decide_tier Hb; decide_tier Hh;
  (split; [|split; [|split; [|split; [|split; [|split; [|split]]]]]]);
  first [ reflexivity
        | split; [discriminate | tauto]
        | split; [intros _; tauto | intros _; reflexivity]
        | repeat split; vm_compute; reflexivity ].
Qed.

(** A defined tier is the first of its level: a later threshold of the same
    level, whatever its case, takes no part. *)
Example kpi_first_of_a_level :
  let k := KeyPerformanceIndicator.add_threshold kpi_gsd
             (PerformanceThreshold.mk "Target" 50 METERS LESS_THAN_OR_EQUAL "") in
  defines (KeyPerformanceIndicator.thresholds k) "target"
    (PerformanceThreshold.mk "target" 10 METERS LESS_THAN_OR_EQUAL "") /\
  fst (KeyPerformanceIndicator.evaluate_performance k 40) = BELOW_THRESHOLD.
Proof.
  split; [|vm_compute; reflexivity].
  exists [ PerformanceThreshold.mk "threshold" 30 METERS LESS_THAN_OR_EQUAL "";
           PerformanceThreshold.mk "baseline" 15 METERS LESS_THAN_OR_EQUAL "" ],
         [ PerformanceThreshold.mk "Target" 50 METERS LESS_THAN_OR_EQUAL "" ].
  repeat split; repeat constructor; discriminate.
Qed.

Example kpi_missing_tiers :
  fst (KeyPerformanceIndicator.evaluate_performance kpi_revisit 2) = BASELINE_MET /\
  fst (KeyPerformanceIndicator.evaluate_performance kpi_revisit 4) = BELOW_THRESHOLD.
Proof. split; vm_compute; reflexivity. Qed.

(** ** The [between] operator on a performance threshold *)

(** C10. A [PerformanceThreshold] whose operator is [between] evaluates to
    false on every value, so the tier of a KPI that is configured with it is
    never the one [evaluate_performance] reports as met. *)
Theorem between_threshold_never_met (th : PerformanceThreshold.t) (x : float) :
  PerformanceThreshold.operator th = BETWEEN ->
  PerformanceThreshold.evaluate th x = false /\
  forall k : KeyPerformanceIndicator.t,
    (KeyPerformanceIndicator.get_threshold k "target" = Some th ->
     fst (KeyPerformanceIndicator.evaluate_performance k x) <> TARGET_MET) /\
    (KeyPerformanceIndicator.get_threshold k "baseline" = Some th ->
     fst (KeyPerformanceIndicator.evaluate_performance k x) <> BASELINE_MET) /\
    (KeyPerformanceIndicator.get_threshold k "threshold" = Some th ->
     fst (KeyPerformanceIndicator.evaluate_performance k x) <> THRESHOLD_MET).
Proof.
  intros Hop.
  assert (Hf : PerformanceThreshold.evaluate th x = false).
  { unfold PerformanceThreshold.evaluate. rewrite Hop. reflexivity. }
  split; [exact Hf|]. intros k.
  unfold KeyPerformanceIndicator.evaluate_performance; simpl.
  repeat split; intros Hl; rewrite Hl; simpl; rewrite Hf;
    repeat match goal with
           | |- context [if ?b then _ else _] => destruct b
           end; discriminate.
Qed.

Lemma between_threshold_never_met_witness :
  PerformanceThreshold.operator between_tier = BETWEEN /\
  PerformanceThreshold.evaluate between_tier 10 = false.
Proof.
  split; [reflexivity|].
  exact (proj1 (between_threshold_never_met between_tier 10 eq_refl)).
Defined.

(** ** Objective-level aggregation *)

Lemma status_values_range s : (0 <= status_values s <= 5)%Z.
Proof. destruct s; simpl; lia. Qed.

Lemma status_values_inj s1 s2 : status_values s1 = status_values s2 -> s1 = s2.
Proof. destruct s1, s2; simpl; intros H; first [reflexivity | discriminate H]. Qed.

(** What the loop has in hand after a run over [l] from [(s0, v0)]. *)
Lemma min_step_fold l : forall s0 v0,
  let r := fold_left min_step l (s0, v0) in
  (snd r <= v0)%Z /\
  (forall s, In s l -> (snd r <= status_values s)%Z) /\
  (r = (s0, v0) \/ (In (fst r) l /\ snd r = status_values (fst r))).
Proof.
  induction l as [|x l IH]; intros s0 v0; simpl.
  - repeat split; [lia | contradiction | left; reflexivity].
  - destruct (Z.ltb_spec (status_values x) v0) as [Hlt|Hge].
    + assert (Hs : min_step (s0, v0) x = (x, status_values x)).
      { unfold min_step; simpl. apply Z.ltb_lt in Hlt. rewrite Hlt. reflexivity. }
      rewrite Hs.
      destruct (IH x (status_values x)) as (Hle & Hall & Hsrc).
      repeat split.
      * lia.
      * intros s [<-|Hin]; [exact Hle | exact (Hall s Hin)].
      * right. destruct Hsrc as [->|[Hin Hv]]; simpl; auto.
    + assert (Hs : min_step (s0, v0) x = (s0, v0)).
      { unfold min_step; simpl. apply Z.ltb_ge in Hge. rewrite Hge. reflexivity. }
      rewrite Hs.
      destruct (IH s0 v0) as (Hle & Hall & Hsrc).
      repeat split.
      * exact Hle.
      * intros s [<-|Hin]; [lia | exact (Hall s Hin)].
      * destruct Hsrc as [Heq|[Hin Hv]]; [left; exact Heq | right; auto].
Qed.

Lemma min_loop_weakest l : l <> [] -> weakest_of l (min_loop l).
Proof.
  intros Hne. unfold min_loop, weakest_of.
  destruct (min_step_fold l EXCEEDED 6%Z) as (_ & Hall & Hsrc).
  destruct l as [|x l]; [congruence|].
  destruct Hsrc as [Heq|[Hin Hv]].
  - exfalso. specialize (Hall x (or_introl eq_refl)).
    rewrite Heq in Hall; simpl in Hall.
    pose proof (status_values_range x). lia.
  - split; [exact Hin|]. intros s Hs. rewrite <- Hv. exact (Hall s Hs).
Qed.

Lemma min_loop_not_evaluated l :
  l <> [] -> (min_loop l = NOT_EVALUATED <-> In NOT_EVALUATED l).
Proof.
  intros Hne. destruct (min_loop_weakest l Hne) as [Hin Hmin]. split.
  - intros <-. exact Hin.
  - intros H0. apply status_values_inj.
    specialize (Hmin _ H0). pose proof (status_values_range (min_loop l)).
    simpl in *. lia.
Qed.

Lemma qo_evaluate_unfold qo :
  QuantitativeObjective.evaluate_objective qo =
  aggregate (map KeyPerformanceIndicator.status (QuantitativeObjective.kpis qo)).
Proof.
  unfold QuantitativeObjective.evaluate_objective.
  destruct (QuantitativeObjective.kpis qo); reflexivity.
Qed.

Lemma mo_evaluate_unfold mo :
  MissionObjective.evaluate_objective mo =
  aggregate (map QuantitativeObjective.evaluate_objective
               (MissionObjective.quantitative_objectives mo)).
Proof.
  unfold MissionObjective.evaluate_objective.
  destruct (MissionObjective.quantitative_objectives mo); reflexivity.
Qed.

Lemma aggregate_weakest (l : list ObjectiveStatus) :
  let r := aggregate l in
  (l = [] -> r = NOT_EVALUATED) /\
  (l <> [] -> weakest_of l r) /\
  (r = NOT_EVALUATED <-> l = [] \/ In NOT_EVALUATED l).
Proof.
  cbv zeta. unfold aggregate. destruct l as [|x l].
  - split; [reflexivity|]. split; [congruence|].
    split; [intros _; left; reflexivity | reflexivity].
  - assert (Hne : x :: l <> []) by congruence.
    split; [congruence|]. split; [intros _; exact (min_loop_weakest _ Hne)|].
    rewrite (min_loop_not_evaluated _ Hne). split.
    + intros H; right; exact H.
    + intros [H|H]; [congruence | exact H].
Qed.

(** C4, as the code has it. Both [evaluate_objective] methods return a
    weakest child status under the ranks below_threshold 1 < threshold_met 2
    < baseline_met 3 < target_met 4 < exceeded 5, with not_evaluated at 0:
    the children of a quantitative objective are the recorded statuses of
    its KPIs, those of a mission objective the results of its quantitative
    objectives. The answer is not_evaluated when there is no child, and
    also whenever some child is itself not_evaluated, and in no other
    case. *)
Theorem evaluate_objective_weakest_child
  (qo : QuantitativeObjective.t) (mo : MissionObjective.t) :
  let qs := map KeyPerformanceIndicator.status (QuantitativeObjective.kpis qo) in
  let ms := map QuantitativeObjective.evaluate_objective
              (MissionObjective.quantitative_objectives mo) in
  let rq := QuantitativeObjective.evaluate_objective qo in
  let rm := MissionObjective.evaluate_objective mo in
  ((qs = [] -> rq = NOT_EVALUATED) /\
   (qs <> [] -> weakest_of qs rq) /\
   (rq = NOT_EVALUATED <-> qs = [] \/ In NOT_EVALUATED qs)) /\
  ((ms = [] -> rm = NOT_EVALUATED) /\
   (ms <> [] -> weakest_of ms rm) /\
   (rm = NOT_EVALUATED <-> ms = [] \/ In NOT_EVALUATED ms)) /\
  (status_values NOT_EVALUATED = 0 /\ status_values BELOW_THRESHOLD = 1 /\
   status_values THRESHOLD_MET = 2 /\ status_values BASELINE_MET = 3 /\
   status_values TARGET_MET = 4 /\ status_values EXCEEDED = 5)%Z.
Proof.
  cbv zeta. rewrite qo_evaluate_unfold, mo_evaluate_unfold.
  split; [apply aggregate_weakest|].
  split; [apply aggregate_weakest|].
  repeat split.
Qed.

(** C4, as stated, fails: an objective with children answers not_evaluated
    when a child has not been evaluated. *)
Lemma evaluate_objective_not_evaluated_with_children :
  QuantitativeObjective.kpis qo_pending <> [] /\
  QuantitativeObjective.evaluate_objective qo_pending = NOT_EVALUATED /\
  MissionObjective.quantitative_objectives mo_pending <> [] /\
  MissionObjective.evaluate_objective mo_pending = NOT_EVALUATED.
Proof.
  repeat split; try discriminate; vm_compute; reflexivity.
Qed.

(** The minimum at work on evaluated children. *)
Example min_loop_sample :
  min_loop [TARGET_MET; THRESHOLD_MET; BASELINE_MET] = THRESHOLD_MET /\
  min_loop [EXCEEDED; TARGET_MET] = TARGET_MET /\
  min_loop [BASELINE_MET; BELOW_THRESHOLD; BELOW_THRESHOLD] = BELOW_THRESHOLD.
Proof. repeat split. Qed.

(** ** Success rates and the critical-constraint flag *)

Lemma in_values {V : Type} (d : gmap string V) (x : V) :
  In x (values d) <-> exists k, d !! k = Some x.
Proof.
  unfold values. rewrite <- list_elem_of_In, list_elem_of_fmap. split.
  - intros ([k y] & -> & Hin). exists k. apply elem_of_map_to_list. exact Hin.
  - intros (k & Hk). exists (k, x). split; [reflexivity|].
    apply elem_of_map_to_list. exact Hk.
Qed.

Lemma count_if_le {V : Type} (p : V -> bool) (l : list V) : count_if p l <= length l.
Proof.
  unfold count_if. induction l as [|x l IH]; simpl; [lia|].
  destruct (p x); simpl; lia.
Qed.

Lemma count_if_all {V : Type} (p : V -> bool) (l : list V) :
  (forall x, In x l -> p x = true) -> count_if p l = length l.
Proof.
  unfold count_if. induction l as [|x l IH]; simpl; intros H; [reflexivity|].
  rewrite (H x (or_introl eq_refl)); simpl. rewrite IH; auto.
Qed.

Lemma count_if_short {V : Type} (p : V -> bool) (l : list V) (x : V) :
  In x l -> p x = false -> count_if p l < length l.
Proof.
  induction l as [|y l IH]; simpl; intros Hin Hx; [contradiction|].
  unfold count_if in *; simpl.
  destruct Hin as [->|Hin].
  - rewrite Hx. pose proof (count_if_le p l) as Hle. unfold count_if in Hle. lia.
  - specialize (IH Hin Hx). destruct (p y); simpl; lia.
Qed.

Lemma percentage_below_100 (k n : nat) : k < n -> (percentage k n < 100)%Q.
Proof.
  intros Hlt. unfold percentage.
  assert (Hn : (0 < inject_Z (Z.of_nat n))%Q).
  { change 0%Q with (inject_Z 0). rewrite <- Zlt_Qlt. lia. }
  apply Qlt_le_trans with (1 * 100)%Q; [|unfold Qle; simpl; lia].
  apply Qmult_lt_compat_r; [reflexivity|].
  apply Qlt_shift_div_r; [exact Hn|].
  rewrite Qmult_1_l. rewrite <- Zlt_Qlt. lia.
Qed.

Lemma filter_nil_if {V : Type} (p : V -> bool) (l : list V) :
  (forall x, In x l -> p x = false) -> List.filter p l = [].
Proof.
  induction l as [|x l IH]; simpl; intros H; [reflexivity|].
  rewrite (H x (or_introl eq_refl)). apply IH. auto.
Qed.

Lemma determine_keeps_flag (e : SolutionEvaluation.t) :
  SolutionEvaluation.all_critical_constraints_met
    (SolutionEvaluation.determine_overall_status e)
  = SolutionEvaluation.all_critical_constraints_met
      (SolutionEvaluation.calculate_success_rates e).
Proof.
  unfold SolutionEvaluation.determine_overall_status.
  repeat match goal with
         | |- context [if ?b then _ else _] => destruct b
         end; reflexivity.
Qed.

Lemma determine_keeps_rate (e : SolutionEvaluation.t) :
  SolutionEvaluation.constraint_success_rate
    (SolutionEvaluation.determine_overall_status e)
  = SolutionEvaluation.constraint_success_rate
      (SolutionEvaluation.calculate_success_rates e).
Proof.
  unfold SolutionEvaluation.determine_overall_status.
  repeat match goal with
         | |- context [if ?b then _ else _] => destruct b
         end; reflexivity.
Qed.

(** All non-negotiable entries of a list verified, as the code tests it
    (two counts compared) and as a plain conjunction. *)
Lemma critical_counts_agree (l : list ConstraintVerification.t) :
  Nat.eqb
    (count_if ConstraintVerification.verified
       (List.filter (fun c => negb (ConstraintVerification.is_negotiable c)) l))
    (length (List.filter (fun c => negb (ConstraintVerification.is_negotiable c)) l))
  = forallb (fun c => implb (negb (ConstraintVerification.is_negotiable c))
                            (ConstraintVerification.verified c)) l.
Proof.
  induction l as [|x l IH]; [reflexivity|].
  simpl forallb. simpl List.filter.
  destruct (ConstraintVerification.is_negotiable x); simpl negb; cbv iota.
  - simpl implb. rewrite andb_true_l. exact IH.
  - simpl implb. unfold count_if in *. simpl List.filter.
    destruct (ConstraintVerification.verified x).
    + simpl length. rewrite andb_true_l. exact IH.
    + rewrite andb_false_l. apply Nat.eqb_neq. simpl length.
      pose proof (count_if_le ConstraintVerification.verified
                    (List.filter (fun c => negb (ConstraintVerification.is_negotiable c)) l))
        as Hle.
      unfold count_if in Hle. lia.
Qed.

(** The flag the constraint block leaves when a non-negotiable
    verification is held. *)
Lemma constraint_block_flag (e : SolutionEvaluation.t) (c0 : ConstraintVerification.t) :
  In c0 (values (SolutionEvaluation.constraint_verifications e)) ->
  ConstraintVerification.is_negotiable c0 = false ->
  snd (SolutionEvaluation.constraint_block e) =
  forallb (fun c => implb (negb (ConstraintVerification.is_negotiable c))
                          (ConstraintVerification.verified c))
          (values (SolutionEvaluation.constraint_verifications e)).
Proof.
  intros Hin Hneg. unfold SolutionEvaluation.constraint_block.
  assert (Hc0 : In c0 (List.filter
                         (fun c => negb (ConstraintVerification.is_negotiable c))
                         (values (SolutionEvaluation.constraint_verifications e)))).
  { apply filter_In. split; [exact Hin | rewrite Hneg; reflexivity]. }
  destruct (values (SolutionEvaluation.constraint_verifications e)) as [|v vs];
    [contradiction|].
  cbv zeta.
  destruct (List.filter _ (v :: vs)) as [|c crit] eqn:Ecrit; [contradiction|].
  cbn [snd]. rewrite <- Ecrit. apply critical_counts_agree.
Qed.

(** The constraint rate is computed from the two counts whenever any
    verification is held. *)
Lemma constraint_block_rate (e : SolutionEvaluation.t) :
  values (SolutionEvaluation.constraint_verifications e) <> [] ->
  fst (SolutionEvaluation.constraint_block e) =
  percentage
    (count_if ConstraintVerification.verified
       (values (SolutionEvaluation.constraint_verifications e)))
    (length (values (SolutionEvaluation.constraint_verifications e))).
Proof.
  intros Hne. unfold SolutionEvaluation.constraint_block, len.
  destruct (values (SolutionEvaluation.constraint_verifications e)) as [|v vs] eqn:E;
    [congruence|].
  cbv zeta.
  destruct (List.filter _ (v :: vs)); reflexivity.
Qed.

(** When no non-negotiable verification is held the block leaves the flag
    alone. *)
Lemma constraint_block_flag_kept (e : SolutionEvaluation.t) :
  (forall c, In c (values (SolutionEvaluation.constraint_verifications e)) ->
             ConstraintVerification.is_negotiable c = true) ->
  snd (SolutionEvaluation.constraint_block e)
  = SolutionEvaluation.all_critical_constraints_met e.
Proof.
  intros Hall. unfold SolutionEvaluation.constraint_block.
  destruct (values (SolutionEvaluation.constraint_verifications e)) as [|v vs] eqn:E;
    [reflexivity|].
  cbv zeta. rewrite filter_nil_if; [reflexivity|].
  intros x Hx. rewrite (Hall x Hx). reflexivity.
Qed.

(** C2, as the code has it. After [calculate_success_rates], and so after
    [determine_overall_status], the flag is true whenever the evaluation
    holds at least one non-negotiable constraint verification and every
    non-negotiable one it holds is verified, whatever the negotiable ones
    say; if moreover a negotiable one fails, the flag is true although the
    constraint success rate is below 100. *)
Theorem critical_flag_ignores_negotiable (e : SolutionEvaluation.t) :
  (exists k c, SolutionEvaluation.constraint_verifications e !! k = Some c /\
               ConstraintVerification.is_negotiable c = false) ->
  (forall k c, SolutionEvaluation.constraint_verifications e !! k = Some c ->
               ConstraintVerification.is_negotiable c = false ->
               ConstraintVerification.verified c = true) ->
  SolutionEvaluation.all_critical_constraints_met
    (SolutionEvaluation.calculate_success_rates e) = true /\
  SolutionEvaluation.all_critical_constraints_met
    (SolutionEvaluation.determine_overall_status e) = true /\
  ((exists k c, SolutionEvaluation.constraint_verifications e !! k = Some c /\
                ConstraintVerification.is_negotiable c = true /\
                ConstraintVerification.verified c = false) ->
   (SolutionEvaluation.constraint_success_rate
      (SolutionEvaluation.calculate_success_rates e) < 100)%Q /\
   (SolutionEvaluation.constraint_success_rate
      (SolutionEvaluation.determine_overall_status e) < 100)%Q).
Proof.
  intros (k0 & c0 & Hk0 & Hneg0) Hcrit.
  assert (Hin0 : In c0 (values (SolutionEvaluation.constraint_verifications e))).
  { apply in_values. exists k0. exact Hk0. }
  assert (Hflag : SolutionEvaluation.all_critical_constraints_met
                    (SolutionEvaluation.calculate_success_rates e) = true).
  { simpl. rewrite (constraint_block_flag e c0 Hin0 Hneg0).
    apply forallb_forall. intros c Hc. apply in_values in Hc as (k & Hk).
    destruct (ConstraintVerification.is_negotiable c) eqn:En; [reflexivity|].
    simpl. exact (Hcrit k c Hk En). }
  split; [exact Hflag|]. split; [rewrite determine_keeps_flag; exact Hflag|].
  intros (k1 & c1 & Hk1 & _ & Hfail).
  assert (Hin1 : In c1 (values (SolutionEvaluation.constraint_verifications e))).
  { apply in_values. exists k1. exact Hk1. }
  assert (Hrate : (SolutionEvaluation.constraint_success_rate
                     (SolutionEvaluation.calculate_success_rates e) < 100)%Q).
  { simpl. rewrite constraint_block_rate.
    - apply percentage_below_100. eapply count_if_short; eassumption.
    - intros E. rewrite E in Hin1. contradiction. }
  split; [exact Hrate | rewrite determine_keeps_rate; exact Hrate].
Qed.

(** The sample dictionaries, listed. *)
Lemma eval_gated_values :
  values (SolutionEvaluation.constraint_verifications eval_gated) = [cv_schedule; cv_mass].
Proof. vm_compute. reflexivity. Qed.

Lemma eval_negotiable_only_values :
  values (SolutionEvaluation.constraint_verifications eval_negotiable_only) = [cv_schedule].
Proof. vm_compute. reflexivity. Qed.

Lemma eval_requirements_only_values :
  values (SolutionEvaluation.constraint_verifications eval_requirements_only) = [].
Proof. vm_compute. reflexivity. Qed.

(** A lookup in a listed dictionary is one of the listed records. *)
Ltac by_listing H listing :=
  let Hin := fresh "Hin" in
  pose proof (proj2 (in_values _ _) (ex_intro _ _ H)) as Hin;
  rewrite listing in Hin; simpl in Hin;
  repeat match type of Hin with
         | _ \/ _ => destruct Hin as [Hin|Hin]
         | False => contradiction
         end;
  subst.

Lemma critical_flag_ignores_negotiable_witness :
  (exists k c, SolutionEvaluation.constraint_verifications eval_gated !! k = Some c /\
               ConstraintVerification.is_negotiable c = false) /\
  (forall k c, SolutionEvaluation.constraint_verifications eval_gated !! k = Some c ->
               ConstraintVerification.is_negotiable c = false ->
               ConstraintVerification.verified c = true) /\
  SolutionEvaluation.all_critical_constraints_met
    (SolutionEvaluation.calculate_success_rates eval_gated) = true /\
  SolutionEvaluation.all_critical_constraints_met
    (SolutionEvaluation.determine_overall_status eval_gated) = true /\
  (SolutionEvaluation.constraint_success_rate
     (SolutionEvaluation.determine_overall_status eval_gated) < 100)%Q.
Proof.
  assert (Hsome : exists k c,
             SolutionEvaluation.constraint_verifications eval_gated !! k = Some c /\
             ConstraintVerification.is_negotiable c = false).
  { exists "CON-MASS", cv_mass. split; vm_compute; reflexivity. }
  assert (Hall : forall k c,
             SolutionEvaluation.constraint_verifications eval_gated !! k = Some c ->
             ConstraintVerification.is_negotiable c = false ->
             ConstraintVerification.verified c = true).
  { intros k c Hk Hneg.
    by_listing Hk eval_gated_values; first [reflexivity | discriminate Hneg]. }
  destruct (critical_flag_ignores_negotiable eval_gated Hsome Hall)
    as (Hcalc & Hflag & Hrate).
  split; [exact Hsome|]. split; [exact Hall|].
  split; [exact Hcalc|]. split; [exact Hflag|].
  apply Hrate. exists "CON-SCHED", cv_schedule.
  repeat split; vm_compute; reflexivity.
Defined.

(** C2, as stated, fails: with one failing negotiable constraint and no
    non-negotiable one, every non-negotiable verification held has passed,
    yet the flag stays false. *)
Lemma critical_flag_false_without_critical :
  (forall k c,
     SolutionEvaluation.constraint_verifications eval_negotiable_only !! k = Some c ->
     ConstraintVerification.is_negotiable c = false ->
     ConstraintVerification.verified c = true) /\
  SolutionEvaluation.constraint_verifications eval_negotiable_only !! "CON-SCHED"
    = Some cv_schedule /\
  ConstraintVerification.is_negotiable cv_schedule = true /\
  ConstraintVerification.verified cv_schedule = false /\
  SolutionEvaluation.all_critical_constraints_met
    (SolutionEvaluation.calculate_success_rates eval_negotiable_only) = false /\
  SolutionEvaluation.all_critical_constraints_met
    (SolutionEvaluation.determine_overall_status eval_negotiable_only) = false.
Proof.
  split.
  - intros k c Hk Hneg. by_listing Hk eval_negotiable_only_values; discriminate Hneg.
  - repeat split; vm_compute; reflexivity.
Qed.

Example eval_gated_rate :
  (SolutionEvaluation.constraint_success_rate
     (SolutionEvaluation.calculate_success_rates eval_gated) == 50)%Q.
Proof. vm_compute. reflexivity. Qed.

(** ** No critical constraint recorded *)

(** C9. When the flag is at its default [False] and the evaluation holds no
    constraint verification, or only negotiable ones,
    [calculate_success_rates] leaves the flag false and
    [determine_overall_status] answers requirements_not_met, whatever
    [all_requirements_met] is. *)
Theorem flag_stays_false_without_critical (e : SolutionEvaluation.t) :
  SolutionEvaluation.all_critical_constraints_met e = false ->
  (forall k c, SolutionEvaluation.constraint_verifications e !! k = Some c ->
               ConstraintVerification.is_negotiable c = true) ->
  SolutionEvaluation.all_critical_constraints_met
    (SolutionEvaluation.calculate_success_rates e) = false /\
  SolutionEvaluation.all_critical_constraints_met
    (SolutionEvaluation.determine_overall_status e) = false /\
  SolutionEvaluation.overall_status
    (SolutionEvaluation.determine_overall_status e) = REQUIREMENTS_NOT_MET.
Proof.
  intros Hdefault Hneg.
  assert (Hflag : SolutionEvaluation.all_critical_constraints_met
                    (SolutionEvaluation.calculate_success_rates e) = false).
  { simpl. rewrite constraint_block_flag_kept; [exact Hdefault|].
    intros c Hc. apply in_values in Hc as (k & Hk). exact (Hneg k c Hk). }
  split; [exact Hflag|]. split; [rewrite determine_keeps_flag; exact Hflag|].
  unfold SolutionEvaluation.determine_overall_status.
  rewrite Hflag. rewrite andb_false_r. simpl negb. rewrite orb_true_r. reflexivity.
Qed.

Lemma flag_stays_false_without_critical_witness :
  SolutionEvaluation.all_critical_constraints_met eval_requirements_only = false /\
  (forall k c,
     SolutionEvaluation.constraint_verifications eval_requirements_only !! k = Some c ->
     ConstraintVerification.is_negotiable c = true) /\
  SolutionEvaluation.all_requirements_met
    (SolutionEvaluation.determine_overall_status eval_requirements_only) = true /\
  SolutionEvaluation.all_critical_constraints_met
    (SolutionEvaluation.calculate_success_rates eval_requirements_only) = false /\
  SolutionEvaluation.all_critical_constraints_met
    (SolutionEvaluation.determine_overall_status eval_requirements_only) = false /\
  SolutionEvaluation.overall_status
    (SolutionEvaluation.determine_overall_status eval_requirements_only)
    = REQUIREMENTS_NOT_MET.
Proof.
  assert (Hneg : forall k c,
             SolutionEvaluation.constraint_verifications eval_requirements_only !! k
               = Some c ->
             ConstraintVerification.is_negotiable c = true).
  { intros k c Hk. by_listing Hk eval_requirements_only_values. }
  split; [reflexivity|]. split; [exact Hneg|].
  split; [vm_compute; reflexivity|].
  exact (flag_stays_false_without_critical eval_requirements_only eq_refl Hneg).
Defined.

Example negotiable_only_not_met :
  SolutionEvaluation.overall_status
    (SolutionEvaluation.determine_overall_status eval_negotiable_only)
  = REQUIREMENTS_NOT_MET.
Proof. vm_compute. reflexivity. Qed.

(** ** Starting the evaluation of a solution *)

Lemma find_solution_id sols sid sol :
  Mission.find_solution sols sid = Some sol -> DesignSolution.id sol = sid.
Proof.
  induction sols as [|s sols IH]; simpl; [discriminate|].
  destruct (String.eqb (DesignSolution.id s) sid) eqn:E.
  - intros [= <-]. apply String.eqb_eq. exact E.
  - exact IH.
Qed.

Lemma evaluate_solution_known (m : Mission.t) (sid : string) (sol : DesignSolution.t)
  (now : Mission.clock) :
  Mission.get_design_solution m sid = Some sol ->
  exists ev m',
    Mission.evaluate_solution m sid now = Ok (ev, m') /\
    fresh ev /\
    SolutionEvaluation.solution_id ev = sid /\
    Mission.design_solutions m' = Mission.design_solutions m /\
    Mission.solution_evaluations m' = <[sid := ev]> (Mission.solution_evaluations m).
Proof.
  intros Hget. unfold Mission.evaluate_solution. rewrite Hget.
  pose proof (find_solution_id _ _ _ Hget) as Hid. rewrite Hid.
  eexists _, _. split; [reflexivity|].
  split; [repeat split|]. repeat split.
Qed.

(** C1, as the code has it. On the id of a known solution,
    [evaluate_solution] leaves every solution, and so the status of this
    one, as it was: a proposed solution stays proposed. What starts as
    under_evaluation is the [overall_status] of the evaluation it stores
    under the solution's id. A second call, after the caller has written
    anything into the stored evaluation, puts a new evaluation under the
    same key with no KPI, figure-of-merit, requirement or constraint entry;
    the entries under other keys are kept. *)
Theorem evaluate_solution_overwrites
  (m : Mission.t) (sid : string) (sol : DesignSolution.t)
  (now1 now2 : Mission.clock)
  (f : SolutionEvaluation.t -> SolutionEvaluation.t) :
  Mission.get_design_solution m sid = Some sol ->
  exists ev1 m1 ev2 m2,
    Mission.evaluate_solution m sid now1 = Ok (ev1, m1) /\
    Mission.evaluate_solution (Mission.update_evaluation m1 sid f) sid now2 = Ok (ev2, m2) /\
    (* the solutions are not touched *)
    Mission.get_design_solution m1 sid = Some sol /\
    Mission.get_design_solution m2 sid = Some sol /\
    Mission.design_solutions m2 = Mission.design_solutions m /\
    (* the first call stores a fresh evaluation, which the caller fills *)
    Mission.solution_evaluations m1 !! sid = Some ev1 /\ fresh ev1 /\
    Mission.solution_evaluations (Mission.update_evaluation m1 sid f) !! sid = Some (f ev1) /\
    (* the second call replaces it *)
    Mission.solution_evaluations m2 !! sid = Some ev2 /\ fresh ev2 /\
    (forall other, other <> sid ->
       Mission.solution_evaluations m2 !! other = Mission.solution_evaluations m !! other).
Proof.
  intros Hget.
  destruct (evaluate_solution_known m sid sol now1 Hget)
    as (ev1 & m1 & He1 & Hf1 & _ & Hs1 & Hm1).
  assert (Hget1 : Mission.get_design_solution
                    (Mission.update_evaluation m1 sid f) sid = Some sol).
  { unfold Mission.get_design_solution in *. simpl. rewrite Hs1. exact Hget. }
  destruct (evaluate_solution_known _ sid sol now2 Hget1)
    as (ev2 & m2 & He2 & Hf2 & _ & Hs2 & Hm2).
  exists ev1, m1, ev2, m2.
  split; [exact He1|]. split; [exact He2|].
  split. { unfold Mission.get_design_solution in *. rewrite Hs1. exact Hget. }
  split. { unfold Mission.get_design_solution in *. rewrite Hs2. exact Hget1. }
  split. { rewrite Hs2. simpl. exact Hs1. }
  split. { rewrite Hm1. apply lookup_insert_eq. }
  split; [exact Hf1|].
  split. { simpl. rewrite lookup_alter_eq, Hm1, lookup_insert_eq. reflexivity. }
  split. { rewrite Hm2. apply lookup_insert_eq. }
  split; [exact Hf2|].
  intros other Hne. rewrite Hm2. simpl.
  rewrite lookup_insert_ne by congruence.
  rewrite lookup_alter_ne by congruence.
  rewrite Hm1. rewrite lookup_insert_ne by congruence. reflexivity.
Qed.

(** The caller of the sample run records a constraint verification between
    the two calls. *)
Lemma evaluate_solution_overwrites_witness :
  Mission.get_design_solution mission0 "SOL-001" = Some sol_001 /\
  exists ev1 m1 ev2 m2,
    Mission.evaluate_solution mission0 "SOL-001" (tick "20250101000000") = Ok (ev1, m1) /\
    Mission.evaluate_solution
      (Mission.update_evaluation m1 "SOL-001"
         (fun ev => SolutionEvaluation.add_constraint_verification ev cv_mass))
      "SOL-001" (tick "20250102000000") = Ok (ev2, m2) /\
    Mission.get_design_solution m1 "SOL-001" = Some sol_001 /\
    Mission.get_design_solution m2 "SOL-001" = Some sol_001 /\
    Mission.design_solutions m2 = Mission.design_solutions mission0 /\
    Mission.solution_evaluations m1 !! "SOL-001" = Some ev1 /\ fresh ev1 /\
    Mission.solution_evaluations
      (Mission.update_evaluation m1 "SOL-001"
         (fun ev => SolutionEvaluation.add_constraint_verification ev cv_mass))
      !! "SOL-001"
    = Some (SolutionEvaluation.add_constraint_verification ev1 cv_mass) /\
    Mission.solution_evaluations m2 !! "SOL-001" = Some ev2 /\ fresh ev2 /\
    (forall other, other <> "SOL-001" ->
       Mission.solution_evaluations m2 !! other
       = Mission.solution_evaluations mission0 !! other).
Proof.
  split; [reflexivity|].
  apply (evaluate_solution_overwrites mission0 "SOL-001" sol_001
           (tick "20250101000000") (tick "20250102000000")
           (fun ev => SolutionEvaluation.add_constraint_verification ev cv_mass)).
  reflexivity.
Defined.

(** C1, as stated, fails: after [evaluate_solution] the proposed solution
    is still proposed, not under_evaluation. *)
Lemma evaluate_solution_keeps_proposed :
  exists ev m1,
    DesignSolution.status <$> Mission.get_design_solution mission0 "SOL-001"
      = Some PROPOSED /\
    Mission.evaluate_solution mission0 "SOL-001" (tick "20250101000000") = Ok (ev, m1) /\
    DesignSolution.status <$> Mission.get_design_solution m1 "SOL-001" = Some PROPOSED /\
    DesignSolution.status <$> Mission.get_design_solution m1 "SOL-001"
      <> Some UNDER_EVALUATION.
Proof.
  eexists _, _. split; [reflexivity|]. split; [reflexivity|].
  split; [reflexivity | discriminate].
Qed.

(** ** Derived orbital parameters *)

Lemma math_sqrt_ok x r : math_sqrt x = Ok r -> r = PrimFloat.sqrt x.
Proof.
  unfold math_sqrt.
  destruct (PrimFloat.is_nan (PrimFloat.sqrt x) && negb (PrimFloat.is_nan x))%bool;
    [discriminate | intros [= <-]; reflexivity].
Qed.

Lemma float_truediv_ok x y q : float_truediv x y = Ok q -> q = x / y.
Proof.
  unfold float_truediv. destruct (float_eq y 0); [discriminate | intros [= <-]; reflexivity].
Qed.

(** C7, as the code has it. Whenever construction returns an orbit, its
    period is [2 * pi * sqrt(a ** 3 / 398600.4418) / 60], its mean motion
    [1440 / period], both computed in double arithmetic from the semi-major
    axis alone; and when the eccentricity is below 0.001 and the caller gave
    no altitude, the altitude is [a - 6378.137]. An altitude the caller gave
    is kept as given, circular orbit or not. *)
Theorem orbit_derived_fields
  (float_pow : float -> float -> Exc float) (self o : Orbit.t) :
  Orbit.post_init float_pow self = Ok o ->
  exists a3 : float,
    float_pow (Orbit.semi_major_axis self) 3 = Ok a3 /\
    Orbit.orbital_period o
      = Some (2 * math_pi * PrimFloat.sqrt (a3 / 398600.4418) / 60) /\
    Orbit.mean_motion o
      = Some (1440 / (2 * math_pi * PrimFloat.sqrt (a3 / 398600.4418) / 60)) /\
    Orbit.semi_major_axis o = Orbit.semi_major_axis self /\
    Orbit.eccentricity o = Orbit.eccentricity self /\
    (Orbit.altitude self = None ->
     (Orbit.eccentricity self <? 0.001) = true ->
     Orbit.altitude o = Some (Orbit.semi_major_axis self - 6378.137)) /\
    (forall h, Orbit.altitude self = Some h -> Orbit.altitude o = Some h).
Proof.
  unfold Orbit.post_init, bind. cbv zeta.
  destruct (float_pow (Orbit.semi_major_axis self) 3) as [a3|] eqn:Ep;
    [|discriminate].
  destruct (math_sqrt (a3 / Orbit.EARTH_MU)) as [root|] eqn:Er;
    [|discriminate].
  apply math_sqrt_ok in Er.
  destruct (float_truediv 1440 (2 * math_pi * root / 60)) as [mm|] eqn:Em;
    [|discriminate].
  apply float_truediv_ok in Em.
  intros [= <-]. subst root mm.
  exists a3. split; [reflexivity|]. simpl.
  split; [reflexivity|]. split; [reflexivity|].
  split; [reflexivity|]. split; [reflexivity|]. split.
  - intros -> He. unfold float_lt. rewrite He. reflexivity.
  - intros h ->. reflexivity.
Qed.

(** The baseline orbit of the demonstration: 705 km, circular, no altitude
    given. *)
Lemma orbit_derived_fields_witness :
  exists o,
    Orbit.new cube_pow "ORB-ITER1" "705km Sun-Synchronous Orbit" "Baseline: 705km SSO"
      (6378.137 + 705.0) 0 98.2 0 0 0 None = Ok o /\
    exists a3 : float,
      cube_pow (6378.137 + 705.0) 3 = Ok a3 /\
      Orbit.orbital_period o
        = Some (2 * math_pi * PrimFloat.sqrt (a3 / 398600.4418) / 60) /\
      Orbit.mean_motion o
        = Some (1440 / (2 * math_pi * PrimFloat.sqrt (a3 / 398600.4418) / 60)) /\
      Orbit.semi_major_axis o = 6378.137 + 705.0 /\
      Orbit.eccentricity o = 0 /\
      (@None float = None -> (0 <? 0.001) = true ->
       Orbit.altitude o = Some (6378.137 + 705.0 - 6378.137)) /\
      (forall h, @None float = Some h -> Orbit.altitude o = Some h).
Proof.
  eexists. split.
  - vm_compute. reflexivity.
  - apply (orbit_derived_fields cube_pow
             (Orbit.mk "ORB-ITER1" "705km Sun-Synchronous Orbit" "Baseline: 705km SSO"
                (6378.137 + 705.0) 0 98.2 0 0 0 None None None None None)).
    vm_compute. reflexivity.
Defined.

(** C7, as stated, fails: a circular orbit built with an altitude of its
    own keeps it, however far from [a - 6378.137]. *)
Lemma orbit_altitude_given_is_kept :
  exists o,
    Orbit.new cube_pow "ORB-X" "Trade orbit" "Option A" 7000 0 98.2 0 0 0 (Some 500)
      = Ok o /\
    (Orbit.eccentricity o <? 0.001) = true /\
    Orbit.altitude o = Some 500 /\
    (PrimFloat.abs (Orbit.semi_major_axis o - 6378.137 - 621.863) <? 1e-9) = true /\
    (1e-9 <? PrimFloat.abs (500 - (Orbit.semi_major_axis o - 6378.137))) = true.
Proof.
  eexists. split; [vm_compute; reflexivity|].
  repeat split; vm_compute; reflexivity.
Qed.

Example baseline_orbit_values :
  exists o,
    Orbit.new cube_pow "ORB-ITER1" "705km Sun-Synchronous Orbit" "Baseline: 705km SSO"
      (6378.137 + 705.0) 0 98.2 0 0 0 None = Ok o /\
    (forall h T, Orbit.altitude o = Some h -> Orbit.orbital_period o = Some T ->
       (PrimFloat.abs (h - 705) <? 1e-9) = true /\
       (98.8 <? T) = true /\ (T <? 98.9) = true).
Proof.
  eexists. split; [vm_compute; reflexivity|].
  intros h T [= <-] [= <-]. repeat split; vm_compute; reflexivity.
Qed.

(** ** Ground sample distance *)

Lemma gsd_formula (p : PayloadInstrument.t) (altitude_km : float) :
  (0 <? PayloadInstrument.focal_length p) = true ->
  (0 <? PayloadInstrument.pixel_pitch p) = true ->
  PayloadInstrument.calculate_gsd_from_orbit p altitude_km =
  (altitude_km * 1000 * PayloadInstrument.pixel_pitch p * 1e-6
     / PayloadInstrument.focal_length p,
   PayloadInstrument.set_ground_sample_distance p
     (altitude_km * 1000 * PayloadInstrument.pixel_pitch p * 1e-6
        / PayloadInstrument.focal_length p)).
Proof.
  intros Hf Hp. unfold PayloadInstrument.calculate_gsd_from_orbit, float_gt.
  rewrite Hf, Hp. reflexivity.
Qed.

(** C8, the code at the stated input. With a focal length of 1.85 m and a
    pixel pitch of 13.0 micrometers, [calculate_gsd_from_orbit] at 705 km
    computes [altitude_m * pixel_pitch * 1e-6 / focal_length] with
    altitude_m = 705 * 1000, which is the double 4.954054054054053: about
    4.95 m, not the 13.9 m the repository's demonstration data hold for
    this payload. The value is returned and stored as the ground sample
    distance. *)
Theorem gsd_at_705_km (p : PayloadInstrument.t) :
  PayloadInstrument.focal_length p = 1.85 ->
  PayloadInstrument.pixel_pitch p = 13.0 ->
  let r := fst (PayloadInstrument.calculate_gsd_from_orbit p 705) in
  let p' := snd (PayloadInstrument.calculate_gsd_from_orbit p 705) in
  r = 705 * 1000 * 13.0 * 1e-6 / 1.85 /\
  r = 0x1.3d0f38bc31d0ep+2 /\
  (PrimFloat.abs (r - 4.954) <? 0.001) = true /\
  PayloadInstrument.ground_sample_distance p' = r.
Proof.
  intros Hf Hp. cbv zeta.
  rewrite gsd_formula by (rewrite ?Hf, ?Hp; vm_compute; reflexivity).
  rewrite Hf, Hp. cbn [fst snd].
  split; [reflexivity|]. split; [vm_compute; reflexivity|].
  split; [vm_compute; reflexivity | reflexivity].
Qed.

Lemma gsd_at_705_km_witness :
  PayloadInstrument.focal_length payload_15m = 1.85 /\
  PayloadInstrument.pixel_pitch payload_15m = 13.0 /\
  fst (PayloadInstrument.calculate_gsd_from_orbit payload_15m 705)
    = 705 * 1000 * 13.0 * 1e-6 / 1.85 /\
  fst (PayloadInstrument.calculate_gsd_from_orbit payload_15m 705)
    = 0x1.3d0f38bc31d0ep+2 /\
  (PrimFloat.abs (fst (PayloadInstrument.calculate_gsd_from_orbit payload_15m 705) - 4.954)
     <? 0.001) = true /\
  PayloadInstrument.ground_sample_distance
    (snd (PayloadInstrument.calculate_gsd_from_orbit payload_15m 705))
  = fst (PayloadInstrument.calculate_gsd_from_orbit payload_15m 705).
Proof.
  split; [reflexivity|]. split; [reflexivity|].
  exact (gsd_at_705_km payload_15m eq_refl eq_refl).
Defined.

(** The value computed for the demonstration payload is below 5 m, more
    than 8.9 m away from the 13.9 m of the demonstration data. *)
Lemma gsd_is_not_13_9 :
  PayloadInstrument.focal_length payload_15m = 1.85 /\
  PayloadInstrument.pixel_pitch payload_15m = 13.0 /\
  (fst (PayloadInstrument.calculate_gsd_from_orbit payload_15m 705) <? 5) = true /\
  (8.9 <? PrimFloat.abs
            (fst (PayloadInstrument.calculate_gsd_from_orbit payload_15m 705) - 13.9))
    = true.
Proof.
  repeat split; vm_compute; reflexivity.
Qed.

(** The demonstration data give this payload 13.9 m with the status
    [baseline_met], and the walk-through of the model notes that its GSD
    "only meets baseline, not target". Against the walk-through's own KPI
    (target <= 10, baseline <= 15, threshold <= 30) 13.9 m is a baseline,
    while the value the code computes meets the target. *)
Example gsd_meets_target_in_the_walk_through :
  fst (KeyPerformanceIndicator.evaluate_performance kpi_gsd 13.9) = BASELINE_MET /\
  fst (KeyPerformanceIndicator.evaluate_performance kpi_gsd
         (fst (PayloadInstrument.calculate_gsd_from_orbit payload_15m 705)))
  = TARGET_MET.
Proof. split; vm_compute; reflexivity. Qed.

(** ** The order of doubles *)

Ltac sf_cases :=
  repeat match goal with
         | b : bool |- _ => destruct b
         | |- context [Z.compare ?x ?y] => destruct (Z.compare_spec x y)
         | |- context [Pos.compare_cont Eq ?x ?y] =>
             change (Pos.compare_cont Eq x y) with (Pos.compare x y);
             destruct (Pos.compare_spec x y)
         end;
  simpl; intros; try reflexivity; try discriminate; try congruence; try lia.

Lemma SFleb_trans a b c : SFleb a b = true -> SFleb b c = true -> SFleb a c = true.
Proof.
  unfold SFleb, SFcompare.
  destruct a as [sa|sa| |sa ma ea], b as [sb|sb| |sb mb eb], c as [sc|sc| |sc mc ec];
    simpl; try discriminate; try reflexivity; sf_cases.
Qed.

Ltac to_spec :=
  unfold ordered, PrimFloat.is_nan;
  rewrite ?FloatAxioms.leb_spec, ?FloatAxioms.ltb_spec, ?FloatAxioms.eqb_spec;
  repeat match goal with
         | |- context [Prim2SF ?x] =>
             let s := fresh "s" in
             generalize (Prim2SF x); intros s
         end;
  unfold SFleb, SFltb, SFeqb, SFcompare.

Ltac by_spec_cases :=
  to_spec;
  repeat match goal with
         | s : spec_float |- _ => destruct s
         end;
  simpl; try discriminate; try reflexivity; try tauto; sf_cases.

Lemma float_le_trans x y z :
  (x <=? y) = true -> (y <=? z) = true -> (x <=? z) = true.
Proof. rewrite !FloatAxioms.leb_spec. apply SFleb_trans. Qed.

Lemma float_lt_le x y : (x <? y) = true -> (x <=? y) = true.
Proof. by_spec_cases. Qed.

Lemma float_le_refl x : ordered x -> (x <=? x) = true.
Proof. by_spec_cases. Qed.

Lemma float_lt_irrefl x : (x <? x) = false.
Proof. by_spec_cases. Qed.

Lemma float_le_ordered x y : (x <=? y) = true -> ordered x /\ ordered y.
Proof. by_spec_cases. Qed.

Lemma float_not_lt_le x y :
  ordered x -> ordered y -> (x <? y) = false -> (y <=? x) = true.
Proof. by_spec_cases. Qed.

Lemma float_not_le_lt x y :
  ordered x -> ordered y -> (y <=? x) = false -> (x <? y) = true.
Proof. by_spec_cases. Qed.

Lemma float_le_not_lt x y : (x <=? y) = true -> (y <? x) = false.
Proof. by_spec_cases. Qed.

Lemma float_le_not_lt_eq x y :
  (x <=? y) = true -> (x <? y) = false -> (x =? y) = true.
Proof. by_spec_cases. Qed.

Lemma float_pos_nonzero y : (0 <? y) = true -> (y =? 0) = false.
Proof.
  rewrite FloatAxioms.ltb_spec, FloatAxioms.eqb_spec.
  change (Prim2SF 0) with (S754_zero false).
  generalize (Prim2SF y); intros s. destruct s as [[]|[]| |[] m e]; cbv; congruence.
Qed.

Lemma float_nan_le_l x y : PrimFloat.is_nan x = true -> (x <=? y) = false.
Proof. by_spec_cases. Qed.

Lemma float_nan_le_r x y : PrimFloat.is_nan y = true -> (x <=? y) = false.
Proof. by_spec_cases. Qed.

(** ** Bounds of a [between] constraint *)

Lemma ncv_between_built lo hi v u c :
  NumericConstraintValue.new BETWEEN v (Some lo) (Some hi) u = Ok c ->
  c = NumericConstraintValue.mk BETWEEN v (Some lo) (Some hi) u /\ (hi <=? lo) = false.
Proof.
  unfold NumericConstraintValue.new, NumericConstraintValue.post_init, float_ge; simpl.
  destruct (hi <=? lo); [discriminate | intros [= <-]; split; reflexivity].
Qed.

(** X1. A [between] constraint that was constructed with bounds that are
    not NaN accepts both of its bounds: the interval is closed and never
    empty. *)
Theorem between_accepts_its_bounds
  (lo hi : float) (v : option float) (u : Unit) (c : NumericConstraintValue.t) :
  ordered lo -> ordered hi ->
  NumericConstraintValue.new BETWEEN v (Some lo) (Some hi) u = Ok c ->
  NumericConstraintValue.evaluate c lo = Ok true /\
  NumericConstraintValue.evaluate c hi = Ok true /\
  (lo <? hi) = true.
Proof.
  intros Hlo Hhi Hnew. apply ncv_between_built in Hnew as [-> Hge].
  pose proof (float_not_le_lt lo hi Hlo Hhi Hge) as Hlt.
  pose proof (float_lt_le _ _ Hlt) as Hle.
  unfold NumericConstraintValue.evaluate, float_le, ord_opt; simpl.
  rewrite (float_le_refl lo Hlo), Hle, (float_le_refl hi Hhi). auto.
Qed.

Lemma between_accepts_its_bounds_witness :
  ordered 500 /\ ordered 800 /\
  NumericConstraintValue.new BETWEEN None (Some 500) (Some 800) KILOMETERS
    = Ok (NumericConstraintValue.mk BETWEEN None (Some 500) (Some 800) KILOMETERS) /\
  NumericConstraintValue.evaluate
    (NumericConstraintValue.mk BETWEEN None (Some 500) (Some 800) KILOMETERS) 500 = Ok true /\
  NumericConstraintValue.evaluate
    (NumericConstraintValue.mk BETWEEN None (Some 500) (Some 800) KILOMETERS) 800 = Ok true /\
  (500 <? 800) = true.
Proof.
  split; [reflexivity|]. split; [reflexivity|]. split; [reflexivity|].
  exact (between_accepts_its_bounds 500 800 None KILOMETERS _ eq_refl eq_refl eq_refl).
Defined.

(** X2. The constructor's test [min_value >= max_value] lets a NaN bound
    through: a [between] constraint with a NaN bound is constructed, and
    then no value satisfies it. *)
Theorem between_nan_bound_unsatisfiable
  (lo hi : float) (v : option float) (u : Unit) :
  PrimFloat.is_nan lo = true \/ PrimFloat.is_nan hi = true ->
  NumericConstraintValue.new BETWEEN v (Some lo) (Some hi) u
    = Ok (NumericConstraintValue.mk BETWEEN v (Some lo) (Some hi) u) /\
  forall x, NumericConstraintValue.evaluate
              (NumericConstraintValue.mk BETWEEN v (Some lo) (Some hi) u) x = Ok false.
Proof.
  intros Hnan. split.
  - unfold NumericConstraintValue.new, NumericConstraintValue.post_init, float_ge; simpl.
    destruct Hnan as [H|H];
      [rewrite (float_nan_le_r hi lo H) | rewrite (float_nan_le_l hi lo H)]; reflexivity.
  - intros x. unfold NumericConstraintValue.evaluate, float_le, ord_opt; simpl.
    destruct Hnan as [H|H].
    + rewrite (float_nan_le_l lo x H). reflexivity.
    + rewrite (float_nan_le_r x hi H). destruct (lo <=? x); reflexivity.
Qed.

Lemma between_nan_bound_unsatisfiable_witness :
  (PrimFloat.is_nan nan = true \/ PrimFloat.is_nan 800 = true) /\
  NumericConstraintValue.new BETWEEN None (Some nan) (Some 800) KILOMETERS
    = Ok (NumericConstraintValue.mk BETWEEN None (Some nan) (Some 800) KILOMETERS) /\
  forall x, NumericConstraintValue.evaluate
              (NumericConstraintValue.mk BETWEEN None (Some nan) (Some 800) KILOMETERS) x
            = Ok false.
Proof.
  split; [left; reflexivity|].
  exact (between_nan_bound_unsatisfiable nan 800 None KILOMETERS (or_introl eq_refl)).
Defined.

(** ** Geographic points and polygons *)

Lemma geopoint_post_init_cases p :
  (in_range p /\ GeoPoint.post_init p = Ok p) \/
  (~ in_range p /\ exists msg, GeoPoint.post_init p = Raise (ValueError msg)).
Proof.
  unfold in_range, GeoPoint.post_init, float_le.
  destruct (-90 <=? GeoPoint.latitude p); simpl;
    [|right; split; [intros (H & _); discriminate | eexists; reflexivity]].
  destruct (GeoPoint.latitude p <=? 90); simpl;
    [|right; split; [intros (_ & H & _); discriminate | eexists; reflexivity]].
  destruct (-180 <=? GeoPoint.longitude p); simpl;
    [|right; split; [intros (_ & _ & H & _); discriminate | eexists; reflexivity]].
  destruct (GeoPoint.longitude p <=? 180); simpl;
    [|right; split; [intros (_ & _ & _ & H); discriminate | eexists; reflexivity]].
  left. auto.
Qed.

Lemma in_range_ordered p :
  in_range p -> ordered (GeoPoint.latitude p) /\ ordered (GeoPoint.longitude p).
Proof.
  intros (H1 & _ & H2 & _).
  split; [exact (proj2 (float_le_ordered _ _ H1)) | exact (proj2 (float_le_ordered _ _ H2))].
Qed.

(** X3. A [GeoPoint] is constructed exactly when its latitude lies in
    [-90, 90] and its longitude in [-180, 180]; otherwise the constructor
    raises [ValueError]. A NaN latitude or longitude is always refused, so
    the coordinates of a constructed point are never NaN. *)
Theorem geopoint_constructed_iff_in_range (p : GeoPoint.t) :
  (GeoPoint.post_init p = Ok p <-> in_range p) /\
  (raises (GeoPoint.post_init p) <-> ~ in_range p) /\
  (PrimFloat.is_nan (GeoPoint.latitude p) = true \/
   PrimFloat.is_nan (GeoPoint.longitude p) = true -> raises (GeoPoint.post_init p)) /\
  (forall q, GeoPoint.post_init p = Ok q ->
     q = p /\ ordered (GeoPoint.latitude q) /\ ordered (GeoPoint.longitude q)).
Proof.
  assert (Hiff : raises (GeoPoint.post_init p) <-> ~ in_range p).
  { destruct (geopoint_post_init_cases p) as [[Hr He]|[Hn (msg & He)]]; rewrite He; simpl.
    - split; [contradiction | intros H; exact (H Hr)].
    - split; [intros _; exact Hn | intros _; exact I]. }
  split; [|split; [exact Hiff|split]].
  - destruct (geopoint_post_init_cases p) as [[Hr He]|[Hn (msg & He)]]; rewrite He.
    + split; auto.
    + split; [discriminate | intros H; contradiction].
  - intros Hnan. apply Hiff. intros Hr. apply in_range_ordered in Hr as [Hlat Hlon].
    unfold ordered in *. destruct Hnan as [H|H]; congruence.
  - intros q Hq.
    destruct (geopoint_post_init_cases p) as [[Hr He]|[Hn (msg & He)]];
      rewrite He in Hq; [|discriminate].
    injection Hq as <-. split; [reflexivity|]. apply in_range_ordered. exact Hr.
Qed.

(** X4. [add_point] enforces the upper bound only. It raises exactly when
    the polygon already has 20 points or more; otherwise it appends the
    point, the result has at most 20 points, and the result is a polygon the
    constructor itself refuses exactly when the polygon had fewer than two
    points before (growing an empty polygon passes through one and two
    points). *)
Theorem add_point_upper_bound_only (g : GeoPolygon.t) (p : GeoPoint.t) :
  (raises (GeoPolygon.add_point g p) <-> 20 <= length (GeoPolygon.points g)) /\
  (forall g', GeoPolygon.add_point g p = Ok g' ->
     GeoPolygon.points g' = (GeoPolygon.points g ++ [p])%list /\
     length (GeoPolygon.points g') <= 20 /\
     (raises (GeoPolygon.post_init g') <-> length (GeoPolygon.points g) < 2)).
Proof.
  unfold GeoPolygon.add_point.
  destruct (Nat.leb_spec 20 (length (GeoPolygon.points g))) as [Hge|Hlt]; simpl.
  - split; [split; [intros _; exact Hge | intros _; exact I] | discriminate].
  - split; [split; [contradiction | lia]|].
    intros g' [= <-]. simpl. split; [reflexivity|].
    unfold GeoPolygon.post_init; simpl. rewrite length_app; simpl.
    split; [lia|].
    destruct (Nat.ltb_spec 20 (length (GeoPolygon.points g) + 1)); [lia|].
    destruct (Nat.ltb_spec 0 (length (GeoPolygon.points g) + 1)); [|lia].
    destruct (Nat.ltb_spec (length (GeoPolygon.points g) + 1) 3); simpl;
      split; intros; first [exact I | lia | contradiction].
Qed.

(** What the two scans have in hand after a run over [xs] from [m]. *)
Lemma py_min_fold xs : forall m,
  ordered m -> Forall ordered xs ->
  let r := py_min m xs in
  (r = m \/ In r xs) /\ (r <=? m) = true /\ (forall y, In y xs -> (r <=? y) = true).
Proof.
  unfold py_min.
  induction xs as [|y xs IH]; intros m Hm Hxs; simpl.
  - split; [left; reflexivity|]. split; [exact (float_le_refl m Hm) | contradiction].
  - inversion Hxs as [|? ? Hy Hxs']; subst.
    destruct (float_lt y m) eqn:E; unfold float_lt in E.
    + destruct (IH y Hy Hxs') as (Hsrc & Hle & Hall).
      split; [right; destruct Hsrc as [->|H]; auto|].
      split; [exact (float_le_trans _ _ _ Hle (float_lt_le _ _ E))|].
      intros z [<-|Hz]; [exact Hle | exact (Hall z Hz)].
    + destruct (IH m Hm Hxs') as (Hsrc & Hle & Hall).
      split; [destruct Hsrc as [->|H]; auto|].
      split; [exact Hle|].
      intros z [<-|Hz]; [|exact (Hall z Hz)].
      exact (float_le_trans _ _ _ Hle (float_not_lt_le _ _ Hy Hm E)).
Qed.

Lemma py_max_fold xs : forall m,
  ordered m -> Forall ordered xs ->
  let r := py_max m xs in
  (r = m \/ In r xs) /\ (m <=? r) = true /\ (forall y, In y xs -> (y <=? r) = true).
Proof.
  unfold py_max.
  induction xs as [|y xs IH]; intros m Hm Hxs; simpl.
  - split; [left; reflexivity|]. split; [exact (float_le_refl m Hm) | contradiction].
  - inversion Hxs as [|? ? Hy Hxs']; subst.
    destruct (float_gt y m) eqn:E; unfold float_gt in E.
    + destruct (IH y Hy Hxs') as (Hsrc & Hle & Hall).
      split; [right; destruct Hsrc as [->|H]; auto|].
      split; [exact (float_le_trans _ _ _ (float_lt_le _ _ E) Hle)|].
      intros z [<-|Hz]; [exact Hle | exact (Hall z Hz)].
    + destruct (IH m Hm Hxs') as (Hsrc & Hle & Hall).
      split; [destruct Hsrc as [->|H]; auto|].
      split; [exact Hle|].
      intros z [<-|Hz]; [|exact (Hall z Hz)].
      exact (float_le_trans _ _ _ (float_not_lt_le _ _ Hm Hy E) Hle).
Qed.

(** X5. For a polygon with at least one point, all of whose points pass the
    [GeoPoint] range test, the bounding box contains every point: each
    latitude lies between the first two components, each longitude between
    the last two; and each component is the coordinate of some point. *)
Theorem bounding_box_contains_points (g : GeoPolygon.t) :
  GeoPolygon.points g <> [] ->
  (forall p, In p (GeoPolygon.points g) -> in_range p) ->
  forall min_lat max_lat min_lon max_lon,
    GeoPolygon.get_bounding_box g = (min_lat, max_lat, min_lon, max_lon) ->
    (forall p, In p (GeoPolygon.points g) ->
       (min_lat <=? GeoPoint.latitude p) = true /\
       (GeoPoint.latitude p <=? max_lat) = true /\
       (min_lon <=? GeoPoint.longitude p) = true /\
       (GeoPoint.longitude p <=? max_lon) = true) /\
    In min_lat (map GeoPoint.latitude (GeoPolygon.points g)) /\
    In max_lat (map GeoPoint.latitude (GeoPolygon.points g)) /\
    In min_lon (map GeoPoint.longitude (GeoPolygon.points g)) /\
    In max_lon (map GeoPoint.longitude (GeoPolygon.points g)).
Proof.
  intros Hne Hvalid min_lat max_lat min_lon max_lon.
  unfold GeoPolygon.get_bounding_box.
  destruct (GeoPolygon.points g) as [|p0 ps]; [congruence|].
  intros [= <- <- <- <-].
  assert (H0 : ordered (GeoPoint.latitude p0) /\ ordered (GeoPoint.longitude p0)).
  { apply in_range_ordered, Hvalid. left; reflexivity. }
  assert (Hlats : Forall ordered (map GeoPoint.latitude ps)).
  { apply List.Forall_forall. intros x Hx. apply in_map_iff in Hx as (q & <- & Hq).
    apply (in_range_ordered q). apply Hvalid. right; exact Hq. }
  assert (Hlons : Forall ordered (map GeoPoint.longitude ps)).
  { apply List.Forall_forall. intros x Hx. apply in_map_iff in Hx as (q & <- & Hq).
    apply (in_range_ordered q). apply Hvalid. right; exact Hq. }
  destruct H0 as [Hlat0 Hlon0].
  destruct (py_min_fold _ _ Hlat0 Hlats) as (Sa & La & Aa).
  destruct (py_max_fold _ _ Hlat0 Hlats) as (Sb & Lb & Ab).
  destruct (py_min_fold _ _ Hlon0 Hlons) as (Sc & Lc & Ac).
  destruct (py_max_fold _ _ Hlon0 Hlons) as (Sd & Ld & Ad).
  split.
  - intros p [<-|Hp].
    + auto.
    + repeat split; [apply Aa | apply Ab | apply Ac | apply Ad];
        apply in_map; exact Hp.
  - simpl. repeat split;
      match goal with
      | |- _ = ?r \/ _ =>
          first [ destruct Sa as [->|H]; [left; reflexivity | right; exact H]
                | destruct Sb as [->|H]; [left; reflexivity | right; exact H]
                | destruct Sc as [->|H]; [left; reflexivity | right; exact H]
                | destruct Sd as [->|H]; [left; reflexivity | right; exact H] ]
      end.
Qed.

Lemma bounding_box_contains_points_witness :
  GeoPolygon.points triangle <> [] /\
  (forall p, In p (GeoPolygon.points triangle) -> in_range p) /\
  GeoPolygon.get_bounding_box triangle = (-12.05, 48.85, -77.04, 36.82) /\
  (forall p, In p (GeoPolygon.points triangle) ->
     (-12.05 <=? GeoPoint.latitude p) = true /\
     (GeoPoint.latitude p <=? 48.85) = true /\
     (-77.04 <=? GeoPoint.longitude p) = true /\
     (GeoPoint.longitude p <=? 36.82) = true).
Proof.
  assert (Hne : GeoPolygon.points triangle <> []) by discriminate.
  assert (Hvalid : forall p, In p (GeoPolygon.points triangle) -> in_range p).
  { intros p [<-|[<-|[<-|[]]]]; unfold in_range; repeat split; reflexivity. }
  assert (Hbox : GeoPolygon.get_bounding_box triangle = (-12.05, 48.85, -77.04, 36.82))
    by (vm_compute; reflexivity).
  split; [exact Hne|]. split; [exact Hvalid|]. split; [exact Hbox|].
  exact (proj1 (bounding_box_contains_points triangle Hne Hvalid _ _ _ _ Hbox)).
Defined.

Lemma float_lt_asym x y : (x <? y) = true -> (y <? x) = false.
Proof. intros H. apply float_le_not_lt, float_lt_le, H. Qed.

Lemma geopoint_new_ok lat lon p :
  GeoPoint.new lat lon = Ok p ->
  p = GeoPoint.mk lat lon None "" /\ in_range p.
Proof.
  unfold GeoPoint.new. intros H.
  destruct (geopoint_post_init_cases (GeoPoint.mk lat lon None ""))
    as [[Hr He]|[Hn (msg & He)]]; rewrite He in H; [|discriminate].
  injection H as <-. auto.
Qed.

Lemma from_bounding_box_built a b c d name g :
  GeoPolygon.from_bounding_box a b c d name = Ok g ->
  g = GeoPolygon.mk
        [GeoPoint.mk a c None ""; GeoPoint.mk a d None ""; GeoPoint.mk b d None "";
         GeoPoint.mk b c None ""; GeoPoint.mk a c None ""] name "" /\
  in_range (GeoPoint.mk a c None "") /\ in_range (GeoPoint.mk b d None "").
Proof.
  unfold GeoPolygon.from_bounding_box, bind.
  destruct (GeoPoint.new a c) as [p1|] eqn:E1; [|discriminate].
  destruct (GeoPoint.new a d) as [p2|] eqn:E2; [|discriminate].
  destruct (GeoPoint.new b d) as [p3|] eqn:E3; [|discriminate].
  destruct (GeoPoint.new b c) as [p4|] eqn:E4; [|discriminate].
  apply geopoint_new_ok in E1 as [-> H1], E2 as [-> H2], E3 as [-> H3], E4 as [-> H4].
  unfold GeoPolygon.new, GeoPolygon.post_init; simpl.
  intros [= <-]. auto.
Qed.

(** X6. A box built by [from_bounding_box] gives its bounds back through
    [get_bounding_box]: with [min <= max] given in that order the minima
    come back as they are and the maxima as values equal ([==]) to the ones
    given; bounds given in the wrong order are accepted and come back
    swapped. *)
Theorem bounding_box_round_trip
  (min_lat max_lat min_lon max_lon : float) (name : string) (g : GeoPolygon.t) :
  GeoPolygon.from_bounding_box min_lat max_lat min_lon max_lon name = Ok g ->
  GeoPolygon.get_bounding_box g =
    (if max_lat <? min_lat then max_lat else min_lat,
     if min_lat <? max_lat then max_lat else min_lat,
     if max_lon <? min_lon then max_lon else min_lon,
     if min_lon <? max_lon then max_lon else min_lon) /\
  ((min_lat <=? max_lat) = true -> (min_lon <=? max_lon) = true ->
   exists y w,
     GeoPolygon.get_bounding_box g = (min_lat, y, min_lon, w) /\
     (y =? max_lat) = true /\ (w =? max_lon) = true).
Proof.
  intros Hg. apply from_bounding_box_built in Hg as (-> & _ & _).
  assert (Hbox : GeoPolygon.get_bounding_box
            (GeoPolygon.mk
               [GeoPoint.mk min_lat min_lon None ""; GeoPoint.mk min_lat max_lon None "";
                GeoPoint.mk max_lat max_lon None ""; GeoPoint.mk max_lat min_lon None "";
                GeoPoint.mk min_lat min_lon None ""] name "") =
    (if max_lat <? min_lat then max_lat else min_lat,
     if min_lat <? max_lat then max_lat else min_lat,
     if max_lon <? min_lon then max_lon else min_lon,
     if min_lon <? max_lon then max_lon else min_lon)).
  { unfold GeoPolygon.get_bounding_box, py_min, py_max, float_lt, float_gt; simpl.
    rewrite !float_lt_irrefl.
    destruct (max_lat <? min_lat) eqn:E1, (min_lat <? max_lat) eqn:E2,
             (max_lon <? min_lon) eqn:E3, (min_lon <? max_lon) eqn:E4;
      rewrite ?float_lt_irrefl, ?E1, ?E2, ?E3, ?E4, ?float_lt_irrefl;
      try (apply float_lt_asym in E1; congruence);
      try (apply float_lt_asym in E3; congruence);
      reflexivity. }
  split; [exact Hbox|]. rewrite Hbox.
  intros Hlat Hlon.
  rewrite (float_le_not_lt _ _ Hlat), (float_le_not_lt _ _ Hlon).
  eexists _, _. split; [reflexivity|]. split.
  - destruct (min_lat <? max_lat) eqn:E.
    + apply float_le_ordered in Hlat as [_ Ho]. unfold ordered, PrimFloat.is_nan in Ho.
      destruct (max_lat =? max_lat); [reflexivity | discriminate].
    + exact (float_le_not_lt_eq _ _ Hlat E).
  - destruct (min_lon <? max_lon) eqn:E.
    + apply float_le_ordered in Hlon as [_ Ho]. unfold ordered, PrimFloat.is_nan in Ho.
      destruct (max_lon =? max_lon); [reflexivity | discriminate].
    + exact (float_le_not_lt_eq _ _ Hlon E).
Qed.

(** The whole globe. *)
Lemma bounding_box_round_trip_witness :
  exists g,
    GeoPolygon.global_coverage = Ok g /\
    GeoPolygon.get_bounding_box g = (-90, 90, -180, 180) /\
    length (GeoPolygon.points g) = 5%nat.
Proof.
  unfold GeoPolygon.global_coverage.
  destruct (GeoPolygon.from_bounding_box (-90) 90 (-180) 180 "Global Coverage")
    as [g|] eqn:E; [|vm_compute in E; discriminate E].
  exists g. split; [reflexivity|].
  split.
  - rewrite (proj1 (bounding_box_round_trip _ _ _ _ _ _ E)). vm_compute. reflexivity.
  - apply from_bounding_box_built in E as (-> & _). reflexivity.
Defined.

(** X7. [from_bounding_box] raises exactly when one of its four bounds is
    out of range (latitudes in [-90, 90], longitudes in [-180, 180]); it
    never fails the polygon's point-count test, and it does not compare a
    minimum with its maximum. *)
Theorem from_bounding_box_fails_iff_out_of_range
  (min_lat max_lat min_lon max_lon : float) (name : string) :
  raises (GeoPolygon.from_bounding_box min_lat max_lat min_lon max_lon name) <->
  ~ ((-90 <=? min_lat) = true /\ (min_lat <=? 90) = true /\
     (-90 <=? max_lat) = true /\ (max_lat <=? 90) = true /\
     (-180 <=? min_lon) = true /\ (min_lon <=? 180) = true /\
     (-180 <=? max_lon) = true /\ (max_lon <=? 180) = true).
Proof.
  unfold GeoPolygon.from_bounding_box, bind, GeoPoint.new, GeoPoint.post_init, float_le;
    simpl.
  destruct (-90 <=? min_lat), (min_lat <=? 90), (-90 <=? max_lat), (max_lat <=? 90),
           (-180 <=? min_lon), (min_lon <=? 180), (-180 <=? max_lon), (max_lon <=? 180);
    simpl; split; intros H; try exact I; try contradiction;
    try (intros (? & ? & ? & ? & ? & ? & ? & ?); discriminate);
    try (exfalso; apply H; repeat split; reflexivity).
Qed.

(** ** Thresholds of a KPI *)

Lemma find_level_app ts us level :
  KeyPerformanceIndicator.find_level (ts ++ us)%list level =
  match KeyPerformanceIndicator.find_level ts level with
  | Some th => Some th
  | None => KeyPerformanceIndicator.find_level us level
  end.
Proof.
  induction ts as [|t ts IH]; simpl; [reflexivity|].
  destruct (String.eqb (lower (PerformanceThreshold.level t)) (lower level));
    [reflexivity | exact IH].
Qed.

Lemma find_level_lower ts l1 l2 :
  lower l1 = lower l2 ->
  KeyPerformanceIndicator.find_level ts l1 = KeyPerformanceIndicator.find_level ts l2.
Proof.
  intros H. induction ts as [|t ts IH]; simpl; [reflexivity|].
  rewrite H, IH. reflexivity.
Qed.

(** X8. Thresholds are looked up first-match. For level names in ASCII (the
    KPI's own, the new threshold's and the one looked up), [get_threshold]
    after [add_threshold] still answers with the threshold the KPI already
    had for a level, and with the new one only for a level that had none,
    levels being compared case-blind. So adding a second threshold for a
    level the KPI defines changes no later [evaluate_performance] verdict. *)
Theorem add_threshold_first_match_wins
  (k : KeyPerformanceIndicator.t) (th : PerformanceThreshold.t) :
  ascii_levels k ->
  isascii (PerformanceThreshold.level th) = true ->
  (forall level,
     isascii level = true ->
     KeyPerformanceIndicator.get_threshold (KeyPerformanceIndicator.add_threshold k th) level
     = match KeyPerformanceIndicator.get_threshold k level with
       | Some old => Some old
       | None =>
           if String.eqb (lower (PerformanceThreshold.level th)) (lower level)
           then Some th else None
       end) /\
  (is_Some (KeyPerformanceIndicator.get_threshold k (PerformanceThreshold.level th)) ->
   forall x,
     fst (KeyPerformanceIndicator.evaluate_performance
            (KeyPerformanceIndicator.add_threshold k th) x)
     = fst (KeyPerformanceIndicator.evaluate_performance k x)).
Proof.
  intros _ _.
  assert (Hget : forall level,
     KeyPerformanceIndicator.get_threshold (KeyPerformanceIndicator.add_threshold k th) level
     = match KeyPerformanceIndicator.get_threshold k level with
       | Some old => Some old
       | None =>
           if String.eqb (lower (PerformanceThreshold.level th)) (lower level)
           then Some th else None
       end).
  { intros level. unfold KeyPerformanceIndicator.get_threshold; simpl.
    rewrite find_level_app. simpl. reflexivity. }
  split; [intros level _; exact (Hget level)|].
  intros [old Hold] x.
  assert (Hsame : forall level,
            KeyPerformanceIndicator.get_threshold
              (KeyPerformanceIndicator.add_threshold k th) level
            = KeyPerformanceIndicator.get_threshold k level).
  { intros level. rewrite Hget.
    destruct (KeyPerformanceIndicator.get_threshold k level) eqn:E; [reflexivity|].
    destruct (String.eqb (lower (PerformanceThreshold.level th)) (lower level)) eqn:El;
      [|reflexivity].
    apply String.eqb_eq in El. unfold KeyPerformanceIndicator.get_threshold in *.
    rewrite (find_level_lower _ _ _ El) in Hold. congruence. }
  unfold KeyPerformanceIndicator.evaluate_performance; simpl.
  rewrite !Hsame. reflexivity.
Qed.

Lemma add_threshold_first_match_wins_witness :
  ascii_levels kpi_gsd /\
  isascii "TARGET" = true /\
  is_Some (KeyPerformanceIndicator.get_threshold kpi_gsd "TARGET") /\
  KeyPerformanceIndicator.get_threshold
    (KeyPerformanceIndicator.add_threshold kpi_gsd
       (PerformanceThreshold.mk "TARGET" 5 METERS LESS_THAN_OR_EQUAL "")) "Target"
  = Some (PerformanceThreshold.mk "target" 10 METERS LESS_THAN_OR_EQUAL "") /\
  forall x,
    fst (KeyPerformanceIndicator.evaluate_performance
           (KeyPerformanceIndicator.add_threshold kpi_gsd
              (PerformanceThreshold.mk "TARGET" 5 METERS LESS_THAN_OR_EQUAL "")) x)
    = fst (KeyPerformanceIndicator.evaluate_performance kpi_gsd x).
Proof.
  assert (Hk : ascii_levels kpi_gsd) by (repeat constructor).
  assert (H : is_Some (KeyPerformanceIndicator.get_threshold kpi_gsd "TARGET")).
  { eexists. vm_compute. reflexivity. }
  destruct (add_threshold_first_match_wins kpi_gsd
              (PerformanceThreshold.mk "TARGET" 5 METERS LESS_THAN_OR_EQUAL "")
              Hk eq_refl) as [Hget Hsame].
  split; [exact Hk|]. split; [reflexivity|]. split; [exact H|].
  split; [rewrite (Hget "Target" eq_refl); vm_compute; reflexivity | exact (Hsame H)].
Defined.

(** ** Objectives over evaluated KPIs *)

Lemma aggregate_nonempty l : l <> [] -> aggregate l = min_loop l.
Proof. destruct l; [congruence | reflexivity]. Qed.

Lemma evaluate_performance_status_range k x :
  let s := KeyPerformanceIndicator.status
             (snd (KeyPerformanceIndicator.evaluate_performance k x)) in
  s = BELOW_THRESHOLD \/ s = THRESHOLD_MET \/ s = BASELINE_MET \/ s = TARGET_MET.
Proof.
  unfold KeyPerformanceIndicator.evaluate_performance; simpl.
  repeat match goal with
         | |- context [if ?b then _ else _] => destruct b
         end; auto.
Qed.

(** X9. Once every KPI of a quantitative objective has been through
    [evaluate_performance], [evaluate_objective] answers below_threshold,
    threshold_met, baseline_met or target_met: never not_evaluated, and
    never exceeded, a status no evaluation produces. *)
Theorem evaluated_objective_has_a_verdict (qo : QuantitativeObjective.t) :
  QuantitativeObjective.kpis qo <> [] ->
  (forall k, In k (QuantitativeObjective.kpis qo) ->
     exists k0 x, k = snd (KeyPerformanceIndicator.evaluate_performance k0 x)) ->
  let r := QuantitativeObjective.evaluate_objective qo in
  (r = BELOW_THRESHOLD \/ r = THRESHOLD_MET \/ r = BASELINE_MET \/ r = TARGET_MET) /\
  r <> NOT_EVALUATED /\ r <> EXCEEDED.
Proof.
  intros Hne Hev. cbv zeta.
  assert (Hr : let r := QuantitativeObjective.evaluate_objective qo in
               r = BELOW_THRESHOLD \/ r = THRESHOLD_MET \/ r = BASELINE_MET \/
               r = TARGET_MET).
  { rewrite qo_evaluate_unfold.
    assert (Hl : map KeyPerformanceIndicator.status (QuantitativeObjective.kpis qo) <> []).
    { destruct (QuantitativeObjective.kpis qo); [congruence | discriminate]. }
    rewrite (aggregate_nonempty _ Hl).
    destruct (min_loop_weakest _ Hl) as [Hin _].
    apply in_map_iff in Hin as (k' & <- & Hk').
    destruct (Hev k' Hk') as (k0 & x & ->).
    apply evaluate_performance_status_range. }
  cbv zeta in Hr. split; [exact Hr|].
  split; intros Heq; rewrite Heq in Hr;
    destruct Hr as [H|[H|[H|H]]]; discriminate H.
Qed.

Lemma evaluated_objective_has_a_verdict_witness :
  QuantitativeObjective.kpis qo_two_kpis <> [] /\
  QuantitativeObjective.evaluate_objective qo_two_kpis = BASELINE_MET /\
  QuantitativeObjective.evaluate_objective qo_two_kpis <> NOT_EVALUATED /\
  QuantitativeObjective.evaluate_objective qo_two_kpis <> EXCEEDED.
Proof.
  assert (Hne : QuantitativeObjective.kpis qo_two_kpis <> []) by discriminate.
  assert (Hev : forall k, In k (QuantitativeObjective.kpis qo_two_kpis) ->
            exists k0 x, k = snd (KeyPerformanceIndicator.evaluate_performance k0 x)).
  { intros k [<-|[<-|[]]]; eexists _, _; reflexivity. }
  split; [exact Hne|]. split; [vm_compute; reflexivity|].
  exact (proj2 (evaluated_objective_has_a_verdict qo_two_kpis Hne Hev)).
Defined.

Lemma get_all_kpis_concat mo :
  MissionObjective.get_all_kpis mo =
  concat (map QuantitativeObjective.kpis (MissionObjective.quantitative_objectives mo)).
Proof.
  unfold MissionObjective.get_all_kpis.
  assert (H : forall qos acc,
             fold_left (fun all_kpis qo => (all_kpis ++ QuantitativeObjective.kpis qo)%list)
               qos acc
             = (acc ++ concat (map QuantitativeObjective.kpis qos))%list).
  { induction qos as [|qo qos IH]; intros acc; simpl.
    - rewrite app_nil_r. reflexivity.
    - rewrite IH, app_assoc. reflexivity. }
  rewrite H. reflexivity.
Qed.

(** X10. When a mission objective has quantitative objectives and each of
    them has a KPI, its status is a weakest status among all the KPIs
    [get_all_kpis] lists: the two-level minimum is the minimum over the
    whole. *)
Theorem mission_objective_weakest_of_all_kpis (mo : MissionObjective.t) :
  MissionObjective.quantitative_objectives mo <> [] ->
  (forall qo, In qo (MissionObjective.quantitative_objectives mo) ->
     QuantitativeObjective.kpis qo <> []) ->
  weakest_of (map KeyPerformanceIndicator.status (MissionObjective.get_all_kpis mo))
    (MissionObjective.evaluate_objective mo).
Proof.
  intros Hne Hall. rewrite get_all_kpis_concat, mo_evaluate_unfold.
  set (qos := MissionObjective.quantitative_objectives mo) in *.
  assert (Hms : map QuantitativeObjective.evaluate_objective qos <> []).
  { destruct qos; [congruence | discriminate]. }
  rewrite (aggregate_nonempty _ Hms).
  destruct (min_loop_weakest _ Hms) as [Hin Hmin].
  assert (Hqo : forall qo, In qo qos ->
            weakest_of (map KeyPerformanceIndicator.status (QuantitativeObjective.kpis qo))
              (QuantitativeObjective.evaluate_objective qo)).
  { intros qo Hq. rewrite qo_evaluate_unfold.
    assert (Hk : map KeyPerformanceIndicator.status (QuantitativeObjective.kpis qo) <> []).
    { pose proof (Hall qo Hq). destruct (QuantitativeObjective.kpis qo);
        [congruence | discriminate]. }
    rewrite (aggregate_nonempty _ Hk). apply min_loop_weakest. exact Hk. }
  split.
  - apply in_map_iff in Hin as (qo & Heq & Hq). rewrite <- Heq.
    destruct (Hqo qo Hq) as [Hin' _].
    apply in_map_iff in Hin' as (k & Hk & Hkin).
    apply in_map_iff. exists k. split; [exact Hk|].
    apply in_concat. exists (QuantitativeObjective.kpis qo).
    split; [apply in_map; exact Hq | exact Hkin].
  - intros s Hs. apply in_map_iff in Hs as (k & <- & Hk).
    apply in_concat in Hk as (ks & Hks & Hkin).
    apply in_map_iff in Hks as (qo & <- & Hq).
    destruct (Hqo qo Hq) as [_ Hmin'].
    specialize (Hmin' (KeyPerformanceIndicator.status k) (in_map _ _ _ Hkin)).
    specialize (Hmin (QuantitativeObjective.evaluate_objective qo) (in_map _ _ _ Hq)).
    lia.
Qed.

Lemma mission_objective_weakest_of_all_kpis_witness :
  MissionObjective.quantitative_objectives mo_evaluated <> [] /\
  (forall qo, In qo (MissionObjective.quantitative_objectives mo_evaluated) ->
     QuantitativeObjective.kpis qo <> []) /\
  MissionObjective.evaluate_objective mo_evaluated = BELOW_THRESHOLD /\
  weakest_of (map KeyPerformanceIndicator.status (MissionObjective.get_all_kpis mo_evaluated))
    (MissionObjective.evaluate_objective mo_evaluated).
Proof.
  assert (Hne : MissionObjective.quantitative_objectives mo_evaluated <> [])
    by discriminate.
  assert (Hall : forall qo, In qo (MissionObjective.quantitative_objectives mo_evaluated) ->
                   QuantitativeObjective.kpis qo <> []).
  { intros qo [<-|[<-|[]]]; discriminate. }
  split; [exact Hne|]. split; [exact Hall|]. split; [vm_compute; reflexivity|].
  exact (mission_objective_weakest_of_all_kpis mo_evaluated Hne Hall).
Defined.

(** ** Recording verifications *)

(** X11. The verification dictionaries are last-write-wins: recording a
    second KPI evaluation, requirement verification or constraint
    verification under an id already used leaves the evaluation exactly as
    if only the second had been recorded. *)
Theorem add_verification_last_write_wins
  (e : SolutionEvaluation.t)
  (k1 k2 : KPIEvaluation.t) (r1 r2 : RequirementVerification.t)
  (c1 c2 : ConstraintVerification.t) :
  KPIEvaluation.kpi_id k1 = KPIEvaluation.kpi_id k2 ->
  RequirementVerification.requirement_id r1 = RequirementVerification.requirement_id r2 ->
  ConstraintVerification.constraint_id c1 = ConstraintVerification.constraint_id c2 ->
  SolutionEvaluation.add_kpi_evaluation (SolutionEvaluation.add_kpi_evaluation e k1) k2
    = SolutionEvaluation.add_kpi_evaluation e k2 /\
  SolutionEvaluation.add_requirement_verification
    (SolutionEvaluation.add_requirement_verification e r1) r2
    = SolutionEvaluation.add_requirement_verification e r2 /\
  SolutionEvaluation.add_constraint_verification
    (SolutionEvaluation.add_constraint_verification e c1) c2
    = SolutionEvaluation.add_constraint_verification e c2 /\
  SolutionEvaluation.constraint_verifications
    (SolutionEvaluation.add_constraint_verification
       (SolutionEvaluation.add_constraint_verification e c1) c2)
    !! ConstraintVerification.constraint_id c1 = Some c2.
Proof.
  intros Hk Hr Hc.
  unfold SolutionEvaluation.add_kpi_evaluation,
    SolutionEvaluation.add_requirement_verification,
    SolutionEvaluation.add_constraint_verification; simpl.
  rewrite Hk, Hr, Hc, !insert_insert_eq, lookup_insert_eq. auto.
Qed.

Lemma add_verification_last_write_wins_witness :
  ConstraintVerification.constraint_id cv_power
    = ConstraintVerification.constraint_id
        (ConstraintVerification.mk "CON-POWER" "Bus power" "<= 800 W" 760 WATTS
           true 40 false) /\
  SolutionEvaluation.add_constraint_verification
    (SolutionEvaluation.add_constraint_verification eval0 cv_power)
    (ConstraintVerification.mk "CON-POWER" "Bus power" "<= 800 W" 760 WATTS true 40 false)
  = SolutionEvaluation.add_constraint_verification eval0
      (ConstraintVerification.mk "CON-POWER" "Bus power" "<= 800 W" 760 WATTS
         true 40 false).
Proof.
  split; [reflexivity|].
  exact (proj1 (proj2 (proj2
    (add_verification_last_write_wins eval0
       (KPIEvaluation.mk "K" "" 0 METERS NOT_EVALUATED false false false)
       (KPIEvaluation.mk "K" "" 0 METERS NOT_EVALUATED false false false)
       rv_gsd rv_gsd cv_power
       (ConstraintVerification.mk "CON-POWER" "Bus power" "<= 800 W" 760 WATTS
          true 40 false)
       eq_refl eq_refl eq_refl)))).
Defined.



(** ** Recomputing the status *)

Lemma kpi_block_calc e :
  SolutionEvaluation.kpi_block (SolutionEvaluation.calculate_success_rates e)
  = SolutionEvaluation.kpi_block e.
Proof.
  unfold SolutionEvaluation.kpi_block at 1. simpl.
  destruct (values (SolutionEvaluation.kpi_evaluations e)) eqn:E.
  - reflexivity.
  - unfold SolutionEvaluation.kpi_block. rewrite E. reflexivity.
Qed.

Lemma requirement_block_calc e :
  SolutionEvaluation.requirement_block (SolutionEvaluation.calculate_success_rates e)
  = SolutionEvaluation.requirement_block e.
Proof.
  unfold SolutionEvaluation.requirement_block at 1. simpl.
  destruct (values (SolutionEvaluation.requirement_verifications e)) eqn:E.
  - destruct (SolutionEvaluation.requirement_block e); reflexivity.
  - unfold SolutionEvaluation.requirement_block. rewrite E. reflexivity.
Qed.

Lemma constraint_block_calc e :
  SolutionEvaluation.constraint_block (SolutionEvaluation.calculate_success_rates e)
  = SolutionEvaluation.constraint_block e.
Proof.
  unfold SolutionEvaluation.constraint_block at 1.
  cbn [SolutionEvaluation.constraint_verifications
       SolutionEvaluation.all_critical_constraints_met
       SolutionEvaluation.constraint_success_rate
       SolutionEvaluation.calculate_success_rates].
  destruct (values (SolutionEvaluation.constraint_verifications e)) as [|v vs] eqn:E.
  - destruct (SolutionEvaluation.constraint_block e); reflexivity.
  - cbv zeta.
    destruct (List.filter (fun c => negb (ConstraintVerification.is_negotiable c))
                (v :: vs)) as [|c cs] eqn:F;
      unfold SolutionEvaluation.constraint_block; rewrite E; cbv zeta; rewrite F;
      reflexivity.
Qed.

Lemma calculate_twice e :
  SolutionEvaluation.calculate_success_rates (SolutionEvaluation.calculate_success_rates e)
  = SolutionEvaluation.calculate_success_rates e.
Proof.
  unfold SolutionEvaluation.calculate_success_rates at 1.
  rewrite kpi_block_calc, requirement_block_calc, constraint_block_calc.
  reflexivity.
Qed.

Lemma calculate_set_overall_status e s :
  SolutionEvaluation.calculate_success_rates (SolutionEvaluation.set_overall_status e s)
  = SolutionEvaluation.set_overall_status (SolutionEvaluation.calculate_success_rates e) s.
Proof. reflexivity. Qed.

Lemma determine_as_set e :
  SolutionEvaluation.determine_overall_status e
  = SolutionEvaluation.set_overall_status (SolutionEvaluation.calculate_success_rates e)
      (if (SolutionEvaluation.all_requirements_met
             (SolutionEvaluation.calculate_success_rates e)
           && SolutionEvaluation.all_critical_constraints_met
                (SolutionEvaluation.calculate_success_rates e))%bool
       then REQUIREMENTS_MET else REQUIREMENTS_NOT_MET).
Proof.
  unfold SolutionEvaluation.determine_overall_status.
  destruct (SolutionEvaluation.all_requirements_met _),
           (SolutionEvaluation.all_critical_constraints_met _); reflexivity.
Qed.

(** X13. [determine_overall_status], and [calculate_success_rates] inside
    it, can be run again at no effect: on unchanged dictionaries a second run
    leaves every rate, flag and the status as the first left them. Every run
    ends on requirements_met or requirements_not_met, never on
    under_evaluation. *)
Theorem determine_overall_status_idempotent (e : SolutionEvaluation.t) :
  SolutionEvaluation.determine_overall_status (SolutionEvaluation.determine_overall_status e)
  = SolutionEvaluation.determine_overall_status e /\
  SolutionEvaluation.calculate_success_rates (SolutionEvaluation.calculate_success_rates e)
  = SolutionEvaluation.calculate_success_rates e /\
  (SolutionEvaluation.overall_status (SolutionEvaluation.determine_overall_status e)
     = REQUIREMENTS_MET \/
   SolutionEvaluation.overall_status (SolutionEvaluation.determine_overall_status e)
     = REQUIREMENTS_NOT_MET).
Proof.
  split; [|split; [apply calculate_twice|]].
  - rewrite (determine_as_set (SolutionEvaluation.determine_overall_status e)).
    rewrite (determine_as_set e) at 1 2 3.
    rewrite !calculate_set_overall_status, !calculate_twice.
    rewrite (determine_as_set e). reflexivity.
  - rewrite determine_as_set. simpl.
    destruct (_ && _)%bool; auto.
Qed.

Lemma count_if_eqb {V : Type} (p : V -> bool) (l : list V) :
  Nat.eqb (count_if p l) (length l) = forallb p l.
Proof.
  induction l as [|x l IH]; [reflexivity|].
  unfold count_if in *. simpl. destruct (p x); simpl.
  - exact IH.
  - apply Nat.eqb_neq. pose proof (count_if_le p l) as Hle. unfold count_if in Hle. lia.
Qed.

Lemma requirement_block_flag (e : SolutionEvaluation.t) :
  values (SolutionEvaluation.requirement_verifications e) <> [] ->
  snd (SolutionEvaluation.requirement_block e)
  = forallb RequirementVerification.verified
      (values (SolutionEvaluation.requirement_verifications e)).
Proof.
  intros Hne. unfold SolutionEvaluation.requirement_block, len.
  destruct (values (SolutionEvaluation.requirement_verifications e)) as [|v vs] eqn:E;
    [congruence|].
  cbn [snd]. apply count_if_eqb.
Qed.

Lemma values_nonempty {V : Type} (d : gmap string V) :
  values d <> [] <-> exists k x, d !! k = Some x.
Proof.
  split.
  - destruct (values d) as [|x xs] eqn:E; [congruence|]. intros _.
    assert (Hin : In x (values d)) by (rewrite E; left; reflexivity).
    apply in_values in Hin as (k & Hk). eauto.
  - intros (k & x & Hk) E.
    assert (Hin : In x (values d)) by (apply in_values; eauto).
    rewrite E in Hin. contradiction.
Qed.

(** X14. For an evaluation whose two flags are at their default [False],
    [determine_overall_status] answers requirements_met exactly when the
    evaluation holds at least one requirement verification and all of them
    are verified, and holds at least one non-negotiable constraint
    verification and all of those are verified. In every other case,
    and so for an evaluation with nothing recorded, it answers
    requirements_not_met. *)
Theorem requirements_met_iff (e : SolutionEvaluation.t) :
  SolutionEvaluation.all_requirements_met e = false ->
  SolutionEvaluation.all_critical_constraints_met e = false ->
  (SolutionEvaluation.overall_status (SolutionEvaluation.determine_overall_status e)
     = REQUIREMENTS_MET <->
   (exists k r, SolutionEvaluation.requirement_verifications e !! k = Some r) /\
   (forall k r, SolutionEvaluation.requirement_verifications e !! k = Some r ->
                RequirementVerification.verified r = true) /\
   (exists k c, SolutionEvaluation.constraint_verifications e !! k = Some c /\
                ConstraintVerification.is_negotiable c = false) /\
   (forall k c, SolutionEvaluation.constraint_verifications e !! k = Some c ->
                ConstraintVerification.is_negotiable c = false ->
                ConstraintVerification.verified c = true)) /\
  (SolutionEvaluation.overall_status (SolutionEvaluation.determine_overall_status e)
     <> REQUIREMENTS_MET ->
   SolutionEvaluation.overall_status (SolutionEvaluation.determine_overall_status e)
     = REQUIREMENTS_NOT_MET).
Proof.
  intros Hreq0 Hcrit0.
  assert (Hr : SolutionEvaluation.all_requirements_met
                 (SolutionEvaluation.calculate_success_rates e) = true <->
               (exists k r, SolutionEvaluation.requirement_verifications e !! k = Some r) /\
               (forall k r, SolutionEvaluation.requirement_verifications e !! k = Some r ->
                            RequirementVerification.verified r = true)).
  { simpl.
    destruct (values (SolutionEvaluation.requirement_verifications e)) as [|v vs] eqn:E.
    - unfold SolutionEvaluation.requirement_block. rewrite E. simpl. rewrite Hreq0.
      split; [discriminate|]. intros [Hex _]. apply values_nonempty in Hex. congruence.
    - assert (Hne : values (SolutionEvaluation.requirement_verifications e) <> [])
        by (rewrite E; discriminate).
      rewrite (requirement_block_flag e Hne), forallb_forall. split.
      + intros Hall. split; [apply values_nonempty; exact Hne|].
        intros k r Hk. apply Hall, in_values. eauto.
      + intros [_ Hall] r Hin. apply in_values in Hin as (k & Hk). eauto. }
  assert (Hc : SolutionEvaluation.all_critical_constraints_met
                 (SolutionEvaluation.calculate_success_rates e) = true <->
               (exists k c, SolutionEvaluation.constraint_verifications e !! k = Some c /\
                            ConstraintVerification.is_negotiable c = false) /\
               (forall k c, SolutionEvaluation.constraint_verifications e !! k = Some c ->
                            ConstraintVerification.is_negotiable c = false ->
                            ConstraintVerification.verified c = true)).
  { simpl. split.
    - intros Hflag.
      assert (Hex : exists c, In c (values (SolutionEvaluation.constraint_verifications e))
                              /\ ConstraintVerification.is_negotiable c = false).
      { destruct (existsb (fun c => negb (ConstraintVerification.is_negotiable c))
                    (values (SolutionEvaluation.constraint_verifications e))) eqn:Ex.
        - apply existsb_exists in Ex as (c & Hin & Hn). exists c. split; [exact Hin|].
          destruct (ConstraintVerification.is_negotiable c); [discriminate | reflexivity].
        - exfalso. rewrite constraint_block_flag_kept in Hflag; [congruence|].
          intros c Hin.
          destruct (ConstraintVerification.is_negotiable c) eqn:En; [reflexivity|].
          assert (existsb (fun c => negb (ConstraintVerification.is_negotiable c))
                    (values (SolutionEvaluation.constraint_verifications e)) = true).
          { apply existsb_exists. exists c. rewrite En. auto. }
          congruence. }
      destruct Hex as (c0 & Hin0 & Hn0).
      rewrite (constraint_block_flag e c0 Hin0 Hn0), forallb_forall in Hflag.
      split.
      + apply in_values in Hin0 as (k & Hk). eauto.
      + intros k c Hk Hn. specialize (Hflag c (proj2 (in_values _ _) (ex_intro _ k Hk))).
        rewrite Hn in Hflag. exact Hflag.
    - intros [(k0 & c0 & Hk0 & Hn0) Hall].
      rewrite (constraint_block_flag e c0 (proj2 (in_values _ _) (ex_intro _ k0 Hk0)) Hn0).
      apply forallb_forall. intros c Hin. apply in_values in Hin as (k & Hk).
      destruct (ConstraintVerification.is_negotiable c) eqn:En; [reflexivity|].
      simpl. exact (Hall k c Hk En). }
  rewrite determine_as_set.
  cbn [SolutionEvaluation.overall_status SolutionEvaluation.set_overall_status].
  destruct (SolutionEvaluation.all_requirements_met
              (SolutionEvaluation.calculate_success_rates e)) eqn:Er;
  destruct (SolutionEvaluation.all_critical_constraints_met
              (SolutionEvaluation.calculate_success_rates e)) eqn:Ec;
    cbn [andb]; (split; [split|]).
  all: try (intros _; reflexivity).
  all: try discriminate.
  all: try congruence.
  - intros _. destruct Hr as [Hr _], Hc as [Hc _].
    destruct (Hr eq_refl) as [? ?], (Hc eq_refl) as [? ?]. auto.
  - intros (_ & _ & H1 & H2). exfalso.
    destruct Hc as [_ Hc]. specialize (Hc (conj H1 H2)). discriminate Hc.
  - intros (H1 & H2 & _). exfalso.
    destruct Hr as [_ Hr]. specialize (Hr (conj H1 H2)). discriminate Hr.
  - intros (H1 & H2 & _). exfalso.
    destruct Hr as [_ Hr]. specialize (Hr (conj H1 H2)). discriminate Hr.
Qed.

Lemma requirements_met_iff_witness :
  SolutionEvaluation.all_requirements_met eval_passing = false /\
  SolutionEvaluation.all_critical_constraints_met eval_passing = false /\
  SolutionEvaluation.overall_status (SolutionEvaluation.determine_overall_status eval_passing)
    = REQUIREMENTS_MET /\
  (exists k r, SolutionEvaluation.requirement_verifications eval_passing !! k = Some r) /\
  (forall k r, SolutionEvaluation.requirement_verifications eval_passing !! k = Some r ->
               RequirementVerification.verified r = true) /\
  (exists k c, SolutionEvaluation.constraint_verifications eval_passing !! k = Some c /\
               ConstraintVerification.is_negotiable c = false) /\
  (forall k c, SolutionEvaluation.constraint_verifications eval_passing !! k = Some c ->
               ConstraintVerification.is_negotiable c = false ->
               ConstraintVerification.verified c = true).
Proof.
  assert (Hst : SolutionEvaluation.overall_status
                  (SolutionEvaluation.determine_overall_status eval_passing)
                = REQUIREMENTS_MET) by (vm_compute; reflexivity).
  split; [reflexivity|]. split; [reflexivity|]. split; [exact Hst|].
  exact (proj1 (proj1 (requirements_met_iff eval_passing eq_refl eq_refl)) Hst).
Defined.

(** ** The solution registry *)

Lemma find_solution_none sols sid :
  Mission.find_solution sols sid = None <->
  forall sol, In sol sols -> DesignSolution.id sol <> sid.
Proof.
  induction sols as [|s sols IH]; simpl.
  - split; [intros _ sol [] | reflexivity].
  - destruct (String.eqb_spec (DesignSolution.id s) sid) as [Heq|Hne].
    + split; [discriminate|]. intros H. exfalso. exact (H s (or_introl eq_refl) Heq).
    + rewrite IH. split.
      * intros H sol [<-|Hin]; [exact Hne | exact (H sol Hin)].
      * intros H sol Hin. apply H. right. exact Hin.
Qed.

Lemma find_solution_app sols more sid :
  Mission.find_solution (sols ++ more)%list sid =
  match Mission.find_solution sols sid with
  | Some old => Some old
  | None => Mission.find_solution more sid
  end.
Proof.
  induction sols as [|s sols IH]; simpl; [reflexivity|].
  destruct (String.eqb (DesignSolution.id s) sid); [reflexivity | exact IH].
Qed.

(** X16. [evaluate_solution] raises, with [ValueError], exactly when no
    listed solution carries the id; it then stores nothing. On any listed id
    it returns an evaluation. *)
Theorem evaluate_solution_raises_iff_unknown
  (m : Mission.t) (sid : string) (now : Mission.clock) :
  (raises (Mission.evaluate_solution m sid now) <->
   forall sol, In sol (Mission.design_solutions m) -> DesignSolution.id sol <> sid) /\
  ((forall sol, In sol (Mission.design_solutions m) -> DesignSolution.id sol <> sid) ->
   Mission.evaluate_solution m sid now
   = Raise (ValueError ("Solution " ++ sid ++ " not found"))) /\
  ((exists sol, In sol (Mission.design_solutions m) /\ DesignSolution.id sol = sid) ->
   exists ev m', Mission.evaluate_solution m sid now = Ok (ev, m')).
Proof.
  unfold Mission.evaluate_solution, Mission.get_design_solution.
  destruct (Mission.find_solution (Mission.design_solutions m) sid) as [sol|] eqn:E.
  - assert (Hno : ~ forall s, In s (Mission.design_solutions m) -> DesignSolution.id s <> sid).
    { intros H. apply find_solution_none in H. congruence. }
    split; [split; [contradiction | intros H; exact (Hno H)]|].
    split; [intros H; contradiction|]. intros _. eexists _, _. reflexivity.
  - pose proof (proj1 (find_solution_none _ _) E) as Hall.
    split; [split; [intros _; exact Hall | intros _; exact I]|].
    split; [reflexivity|].
    intros (sol & Hin & Hid). exfalso. exact (Hall sol Hin Hid).
Qed.

(** X17. Solutions are looked up first-match, and [add_design_solution]
    never refuses an id: after it, [get_design_solution] still answers with
    the solution already listed under an id, and with the new solution only
    under an id no listed solution had. A solution added under a taken id
    cannot be reached by id. *)
Theorem add_design_solution_first_match_wins
  (m : Mission.t) (s : DesignSolution.t) (now : datetime) :
  fst (Mission.add_design_solution m s now) = DesignSolution.id s /\
  (forall sid,
     Mission.get_design_solution (snd (Mission.add_design_solution m s now)) sid
     = match Mission.get_design_solution m sid with
       | Some old => Some old
       | None => if String.eqb (DesignSolution.id s) sid then Some s else None
       end) /\
  ((forall sol, In sol (Mission.design_solutions m) ->
                DesignSolution.id sol <> DesignSolution.id s) ->
   Mission.get_design_solution (snd (Mission.add_design_solution m s now))
     (DesignSolution.id s) = Some s) /\
  Mission.solution_evaluations (snd (Mission.add_design_solution m s now))
    = Mission.solution_evaluations m.
Proof.
  assert (Hget : forall sid,
     Mission.get_design_solution (snd (Mission.add_design_solution m s now)) sid
     = match Mission.get_design_solution m sid with
       | Some old => Some old
       | None => if String.eqb (DesignSolution.id s) sid then Some s else None
       end).
  { intros sid. unfold Mission.get_design_solution; simpl.
    rewrite find_solution_app. reflexivity. }
  split; [reflexivity|]. split; [exact Hget|]. split; [|reflexivity].
  intros Hfresh. rewrite Hget. unfold Mission.get_design_solution.
  rewrite (proj2 (find_solution_none _ _) Hfresh), String.eqb_refl. reflexivity.
Qed.

(** A second solution under the id of the first stays out of reach. *)
Example duplicate_solution_is_shadowed :
  Mission.get_design_solution
    (snd (Mission.add_design_solution mission0 sol_duplicate "2025-01-02")) "SOL-001"
  = Some sol_001.
Proof. reflexivity. Qed.



(** ** The iteration history *)



Example three_iterations_are_1_2_3 :
  let step ml := snd (MissionLists.add_design_iteration ml sol_001 eval0 "" ""
                        "2025-01-01" "2025-01-01") in
  map DesignIteration.iteration_number
    (MissionLists.design_iterations (step (step (step mission_lists0))))
  = [1; 2; 3]%nat.
Proof. reflexivity. Qed.

(** ** Verifying by id *)

Lemma ncv_checked_evaluates c x :
  NumericConstraintValue.post_init c = Ok c ->
  exists b, NumericConstraintValue.evaluate c x = Ok b.
Proof.
  destruct c as [op v mn mx u].
  unfold NumericConstraintValue.post_init, NumericConstraintValue.evaluate,
    ord_opt, eq_opt, ne_opt; simpl.
  destruct op; simpl;
    try (destruct v; [intros _; eexists; reflexivity | discriminate]).
  destruct mn as [lo|], mx as [hi|]; try discriminate.
  intros _. destruct (float_le lo x); eexists; reflexivity.
Qed.

Lemma first_with_id_none {A : Type} (id_of : A -> string) xs key :
  (forall x, In x xs -> id_of x <> key) ->
  MissionLists.first_with_id id_of xs key = None.
Proof.
  induction xs as [|x xs IH]; simpl; intros H; [reflexivity|].
  destruct (String.eqb_spec (id_of x) key) as [Heq|Hne].
  - exfalso. exact (H x (or_introl eq_refl) Heq).
  - apply IH. intros y Hy. apply H. right. exact Hy.
Qed.

(** X20. [verify_requirement] and [verify_constraint] answer [False] for an
    id nothing carries: a miss cannot be told from a failed verification.
    For an id that is carried they answer as the first entry with that id
    verifies, and they do not raise when that entry's constraint value
    passes the constructor's test. *)
Theorem verify_by_id_miss_is_false
  (ml : MissionLists.t) (key : string) (x : float) :
  ((forall r, In r (MissionLists.requirements ml) -> Requirement.id r <> key) ->
   MissionLists.verify_requirement ml key x = Ok false) /\
  ((forall c, In c (MissionLists.constraints ml) -> Constraint.id c <> key) ->
   MissionLists.verify_constraint ml key x = Ok false) /\
  (forall r, MissionLists.first_with_id Requirement.id (MissionLists.requirements ml) key
             = Some r ->
     MissionLists.verify_requirement ml key x
       = NumericConstraintValue.evaluate (Requirement.constraint r) x /\
     (NumericConstraintValue.post_init (Requirement.constraint r)
        = Ok (Requirement.constraint r) ->
      exists b, MissionLists.verify_requirement ml key x = Ok b)) /\
  (forall c, MissionLists.first_with_id Constraint.id (MissionLists.constraints ml) key
             = Some c ->
     MissionLists.verify_constraint ml key x
       = NumericConstraintValue.evaluate (Constraint.constraint c) x /\
     (NumericConstraintValue.post_init (Constraint.constraint c)
        = Ok (Constraint.constraint c) ->
      exists b, MissionLists.verify_constraint ml key x = Ok b)).
Proof.
  unfold MissionLists.verify_requirement, MissionLists.verify_constraint,
    Requirement.verify, Constraint.verify.
  split; [|split; [|split]].
  - intros H. rewrite (first_with_id_none _ _ _ H). reflexivity.
  - intros H. rewrite (first_with_id_none _ _ _ H). reflexivity.
  - intros r ->. split; [reflexivity|]. apply ncv_checked_evaluates.
  - intros c ->. split; [reflexivity|]. apply ncv_checked_evaluates.
Qed.

Example verify_requirement_samples :
  MissionLists.verify_requirement mission_lists0 "REQ-001" 13 = Ok true /\
  MissionLists.verify_requirement mission_lists0 "REQ-001" 20 = Ok false /\
  MissionLists.verify_requirement mission_lists0 "REQ-404" 13 = Ok false.
Proof. repeat split. Qed.

(** ** Units of typed requirements and constraints *)

(** X21. A constraint value whose unit is [UNITLESS], the default of
    [NumericConstraintValue], is refused by the constructor of every typed
    requirement and of every typed constraint that tests units; only
    [OrbitalConstraint], which tests none, accepts it. *)
Theorem unitless_value_is_refused
  (c : NumericConstraintValue.t) (id title rationale : string)
  (priority : Priority.t) (negotiable : bool) :
  NumericConstraintValue.unit c = UNITLESS ->
  raises (Requirement.SpatialResolutionRequirement id title c priority rationale) /\
  raises (Requirement.TemporalResolutionRequirement id title c priority rationale) /\
  raises (Requirement.SpectralResolutionRequirement id title c priority rationale) /\
  raises (Requirement.RadiometricResolutionRequirement id title c priority rationale) /\
  raises (Requirement.SwathWidthRequirement id title c priority rationale) /\
  raises (Requirement.CoverageAreaRequirement id title c priority rationale) /\
  raises (Requirement.DataLatencyRequirement id title c priority rationale) /\
  raises (Constraint.BudgetConstraint id title c priority rationale negotiable) /\
  raises (Constraint.MassConstraint id title c priority rationale negotiable) /\
  raises (Constraint.PowerConstraint id title c priority rationale negotiable) /\
  raises (Constraint.ScheduleConstraint id title c priority rationale negotiable) /\
  exists k, Constraint.OrbitalConstraint id title c priority rationale negotiable = Ok k /\
            Constraint.constraint k = c.
Proof.
  intros Hu.
  unfold Requirement.SpatialResolutionRequirement, Requirement.TemporalResolutionRequirement,
    Requirement.SpectralResolutionRequirement, Requirement.RadiometricResolutionRequirement,
    Requirement.SwathWidthRequirement, Requirement.CoverageAreaRequirement,
    Requirement.DataLatencyRequirement, Constraint.BudgetConstraint,
    Constraint.MassConstraint, Constraint.PowerConstraint, Constraint.ScheduleConstraint,
    Constraint.OrbitalConstraint, Requirement.typed, Constraint.typed.
  rewrite Hu. repeat split; try exact I. eexists. split; reflexivity.
Qed.

Lemma unitless_value_is_refused_witness :
  NumericConstraintValue.unit ncv_unitless = UNITLESS /\
  raises (Requirement.SpatialResolutionRequirement "REQ-001" "Spatial resolution"
            ncv_unitless Priority.CRITICAL "") /\
  Requirement.SpatialResolutionRequirement "REQ-001" "Spatial resolution"
    ncv_gsd Priority.CRITICAL "" = Ok req_spatial.
Proof.
  split; [reflexivity|]. split; [|reflexivity].
  exact (proj1 (unitless_value_is_refused ncv_unitless "REQ-001" "Spatial resolution" ""
                  Priority.CRITICAL false eq_refl)).
Defined.

(** ** Components of a spacecraft *)

Lemma find_component_app comps more key :
  Spacecraft.find_component (comps ++ more)%list key =
  match Spacecraft.find_component comps key with
  | Some old => Some old
  | None => Spacecraft.find_component more key
  end.
Proof.
  induction comps as [|c comps IH]; simpl; [reflexivity|].
  destruct (String.eqb (Component.id c) key); [reflexivity | exact IH].
Qed.

Lemma find_component_none comps key :
  Spacecraft.find_component comps key = None <->
  forall c, In c comps -> Component.id c <> key.
Proof.
  induction comps as [|c comps IH]; simpl.
  - split; [intros _ c [] | reflexivity].
  - destruct (String.eqb_spec (Component.id c) key) as [Heq|Hne].
    + split; [discriminate|]. intros H. exfalso. exact (H c (or_introl eq_refl) Heq).
    + rewrite IH. split.
      * intros H c' [<-|Hin]; [exact Hne | exact (H c' Hin)].
      * intros H c' Hin. apply H. right. exact Hin.
Qed.

(** X22. Components are looked up first-match and [add_component] refuses
    no id: [get_component_by_id] answers [None] exactly for an id no
    component carries; after [add_component] it answers with the new
    component under an id that was free, and still with the older
    component under an id that was taken. *)
Theorem add_component_first_match_wins
  (sc : Spacecraft.t) (c : Component.t) (key : string) :
  (Spacecraft.get_component_by_id sc key = None <->
   forall c', In c' (Spacecraft.components sc) -> Component.id c' <> key) /\
  Spacecraft.get_component_by_id (Spacecraft.add_component sc c) key
  = match Spacecraft.get_component_by_id sc key with
    | Some old => Some old
    | None => if String.eqb (Component.id c) key then Some c else None
    end /\
  ((forall c', In c' (Spacecraft.components sc) -> Component.id c' <> Component.id c) ->
   Spacecraft.get_component_by_id (Spacecraft.add_component sc c) (Component.id c)
   = Some c).
Proof.
  unfold Spacecraft.get_component_by_id; simpl.
  split; [apply find_component_none|]. split.
  - rewrite find_component_app. reflexivity.
  - intros Hfresh. rewrite find_component_app.
    rewrite (proj2 (find_component_none _ _) Hfresh). simpl.
    rewrite String.eqb_refl. reflexivity.
Qed.

Lemma accumulate_fold_keys (quantity : Component.t -> float) comps :
  forall (acc : gmap string float) (key : string),
    is_Some (fold_left (Spacecraft.accumulate quantity) comps acc !! key) <->
    is_Some (acc !! key) \/
    exists c, In c comps /\ ComponentType.value (Component.component_type c) = key.
Proof.
  induction comps as [|c comps IH]; intros acc key; simpl.
  - split; [auto | intros [H|(c & [] & _)]; exact H].
  - rewrite IH. unfold Spacecraft.accumulate at 1.
    rewrite lookup_insert_is_Some. split.
    + intros [[Heq|[_ H]]|(c' & Hin & Hk)].
      * right. exists c. auto.
      * left. exact H.
      * right. exists c'. auto.
    + intros [H|(c' & [<-|Hin] & Hk)].
      * destruct (decide (ComponentType.value (Component.component_type c) = key));
          left; [left; assumption | right; auto].
      * left. left. exact Hk.
      * right. exists c'. auto.
Qed.

Lemma component_type_value_inj a b :
  ComponentType.value a = ComponentType.value b -> a = b.
Proof. destruct a, b; simpl; intros H; first [reflexivity | discriminate H]. Qed.

(** X23. The mass breakdown and the power breakdown, in either mode, have
    an entry for exactly the subsystem types that occur among the
    components: a type has an entry when, and only when,
    [get_components_by_type] finds a component of it. A spacecraft without
    components has empty breakdowns. *)
Theorem breakdown_keys_are_types_present
  (sc : Spacecraft.t) (ty : ComponentType.t) (mode : string) :
  (is_Some (Spacecraft.calculate_mass_by_subsystem sc !! ComponentType.value ty) <->
   Spacecraft.get_components_by_type sc ty <> []) /\
  (is_Some (Spacecraft.calculate_power_by_subsystem sc mode !! ComponentType.value ty) <->
   Spacecraft.get_components_by_type sc ty <> []) /\
  (forall key,
     is_Some (Spacecraft.calculate_mass_by_subsystem sc !! key) <->
     exists c, In c (Spacecraft.components sc) /\
               ComponentType.value (Component.component_type c) = key) /\
  (Spacecraft.components sc = [] ->
   Spacecraft.calculate_mass_by_subsystem sc = ∅ /\
   Spacecraft.calculate_power_by_subsystem sc mode = ∅).
Proof.
  assert (Hkeys : forall quantity key,
            is_Some (fold_left (Spacecraft.accumulate quantity) (Spacecraft.components sc) ∅
                       !! key) <->
            exists c, In c (Spacecraft.components sc) /\
                      ComponentType.value (Component.component_type c) = key).
  { intros quantity key. rewrite accumulate_fold_keys, lookup_empty. split.
    - intros [H|H]; [destruct H; discriminate | exact H].
    - intros H. right. exact H. }
  assert (Hty : (exists c, In c (Spacecraft.components sc) /\
                   ComponentType.value (Component.component_type c) = ComponentType.value ty)
                <-> Spacecraft.get_components_by_type sc ty <> []).
  { unfold Spacecraft.get_components_by_type. split.
    - intros (c & Hin & Hv) E. apply component_type_value_inj in Hv.
      assert (Hf : In c (List.filter
                           (fun c => bool_decide (Component.component_type c = ty))
                           (Spacecraft.components sc))).
      { apply filter_In. split; [exact Hin|]. apply bool_decide_eq_true. exact Hv. }
      rewrite E in Hf. contradiction.
    - destruct (List.filter _ (Spacecraft.components sc)) as [|c cs] eqn:E; [congruence|].
      intros _. assert (Hf : In c (List.filter
                           (fun c => bool_decide (Component.component_type c = ty))
                           (Spacecraft.components sc))) by (rewrite E; left; reflexivity).
      apply filter_In in Hf as [Hin Hb]. apply bool_decide_eq_true in Hb.
      exists c. split; [exact Hin | rewrite Hb; reflexivity]. }
  unfold Spacecraft.calculate_mass_by_subsystem, Spacecraft.calculate_power_by_subsystem.
  split; [rewrite Hkeys; exact Hty|]. split; [rewrite Hkeys; exact Hty|].
  split; [intros key; apply Hkeys|].
  intros ->. split; reflexivity.
Qed.

Example bus_breakdown :
  Spacecraft.calculate_mass_by_subsystem sc_bus !! "eps" = Some 280 /\
  Spacecraft.calculate_mass_by_subsystem sc_bus !! "communications" = Some 24 /\
  Spacecraft.calculate_mass_by_subsystem sc_bus !! "thermal" = None /\
  Spacecraft.calculate_power_by_subsystem sc_bus "survival" !! "eps" = Some 5.
Proof. repeat split; vm_compute; reflexivity. Qed.

(** ** The f-number *)

(** X24. [calculate_f_number] never raises: the quotient is taken only
    under [aperture_diameter > 0], where the divisor cannot be zero. Under
    the guard it returns and stores [focal_length / aperture_diameter]; with
    an aperture that is zero, negative or NaN it returns the stored f-number
    and changes nothing. *)
Theorem calculate_f_number_never_raises (p : PayloadInstrument.t) :
  exists r p',
    PayloadInstrument.calculate_f_number p = Ok (r, p') /\
    PayloadInstrument.f_number p' = r /\
    ((0 <? PayloadInstrument.aperture_diameter p) = true ->
     r = PayloadInstrument.focal_length p / PayloadInstrument.aperture_diameter p) /\
    ((0 <? PayloadInstrument.aperture_diameter p) = false ->
     p' = p /\ r = PayloadInstrument.f_number p).
Proof.
  unfold PayloadInstrument.calculate_f_number, float_gt, float_truediv, float_eq, bind.
  destruct (0 <? PayloadInstrument.aperture_diameter p) eqn:E.
  - rewrite (float_pos_nonzero _ E). eexists _, _. split; [reflexivity|].
    split; [reflexivity|]. split; [reflexivity | discriminate].
  - eexists _, _. split; [reflexivity|]. split; [reflexivity|].
    split; [discriminate | auto].
Qed.

Example f_number_of_the_heritage_imager :
  exists p', PayloadInstrument.calculate_f_number payload_15m = Ok (1.85 / 0.30, p').
Proof. eexists. vm_compute. reflexivity. Qed.

(** ** Orbits that cannot be built *)

Lemma float_eq_zero_cases x : (x =? 0) = true -> x = 0 \/ x = (-0).
Proof.
  rewrite FloatAxioms.eqb_spec. change (Prim2SF 0) with (S754_zero false).
  intros H. rewrite <- (SF2Prim_Prim2SF x).
  destruct (Prim2SF x) as [[]|[]| |[] m e]; try (cbv in H; discriminate H).
  - right. reflexivity.
  - left. reflexivity.
Qed.

(** X25. Orbit construction is not total: when the cube of the semi-major
    axis computes to zero (a semi-major axis of 0, or one small enough for
    the cube to underflow), the period is zero and the mean motion
    [1440 / period] raises [ZeroDivisionError]; no orbit is built. *)
Theorem orbit_zero_cube_raises
  (float_pow : float -> float -> Exc float) (self : Orbit.t) (a3 : float) :
  float_pow (Orbit.semi_major_axis self) 3 = Ok a3 ->
  (a3 =? 0) = true ->
  Orbit.post_init float_pow self = Raise ZeroDivisionError.
Proof.
  intros Hpow Hz. unfold Orbit.post_init, bind. cbv zeta. rewrite Hpow.
  destruct (float_eq_zero_cases a3 Hz) as [-> | ->].
  - assert (Hs : math_sqrt (0 / Orbit.EARTH_MU) = Ok 0) by (vm_compute; reflexivity).
    rewrite Hs.
    assert (Hd : float_truediv 1440 (2 * math_pi * 0 / 60) = Raise ZeroDivisionError)
      by (vm_compute; reflexivity).
    rewrite Hd. reflexivity.
  - assert (Hs : math_sqrt (-0 / Orbit.EARTH_MU) = Ok (-0)) by (vm_compute; reflexivity).
    rewrite Hs.
    assert (Hd : float_truediv 1440 (2 * math_pi * (-0) / 60) = Raise ZeroDivisionError)
      by (vm_compute; reflexivity).
    rewrite Hd. reflexivity.
Qed.

Lemma orbit_zero_cube_raises_witness :
  cube_pow 0 3 = Ok 0 /\ (0 =? 0) = true /\
  Orbit.new cube_pow "ORB-0" "Degenerate" "a = 0" 0 0 0 0 0 0 None
    = Raise ZeroDivisionError.
Proof.
  split; [reflexivity|]. split; [reflexivity|].
  exact (orbit_zero_cube_raises cube_pow
           (Orbit.mk "ORB-0" "Degenerate" "a = 0" 0 0 0 0 0 0 None None None None None)
           0 eq_refl eq_refl).
Defined.

(** A negative semi-major axis is refused by the square root. *)
Example orbit_negative_axis_raises :
  Orbit.new cube_pow "ORB-N" "Negative" "a < 0" (-7000) 0 0 0 0 0 None
    = Raise (ValueError "math domain error").
Proof. vm_compute. reflexivity. Qed.
